(** * LaMDA-pytorch: a shallow embedding of [lamda_pytorch/lamda_pytorch.py]

    The development follows the Python file top to bottom.  Every [nn.Module]
    class becomes a Rocq module holding a record [t] (the attributes assigned
    in [__init__]), a constructor [init] and a [forward].

    - Object identity.  Each constructed [nn.Module] receives a fresh object
      identifier from a counter threaded through the constructors, so that
      two occurrences of one Python object carry the same identifier and two
      separately constructed objects carry different ones.
    - Exceptions.  Constructors and forward passes return a [result]; the
      exceptions raised by the tensor runtime (negative sizes, shape
      mismatches, indices out of range) are written out.
    - Tensors.  Integer tensors carry their shape and their entries.
      Floating-point activations are followed through the network by their
      shape; the few places where values matter (relative-position buckets,
      squared ReLU, causal mask) are given value-level definitions.  The
      float32 arithmetic of the runtime is written with exact numbers, so
      only what no rounding can change is proved from it: which entries are
      selected without looking at a float, the clamps, and that the number
      handed to an integer conversion is finite and not negative.
    - Parameters.  The driver's count of trainable parameters walks the
      registered parameters of the model and counts each tensor once. *)

From Stdlib Require Import String ZArith List Bool Lia QArith Reals Lra Permutation.
Import ListNotations.
Local Open Scope Z_scope.

Set Implicit Arguments.

(** ** Exceptions and the two monads *)

Inductive exn : Type :=
| RuntimeError (msg : string)
| ValueError (msg : string)
| ZeroDivisionError
| IndexError
| EinopsError (msg : string).

Inductive result (A : Type) : Type :=
| Ok (a : A)
| Raise (e : exn).
Arguments Ok {A} a.
Arguments Raise {A} e.

Definition is_ok {A} (r : result A) : bool :=
  match r with Ok _ => true | Raise _ => false end.

(** Object identifiers: the order of allocation. *)
Definition oid := nat.

(** A constructor threads the next free object identifier. *)
Definition ctor (A : Type) : Type := oid -> result (A * oid).

Class Monad (m : Type -> Type) : Type :=
  { ret : forall {A}, A -> m A;
    bind : forall {A B}, m A -> (A -> m B) -> m B }.

#[export] Instance result_monad : Monad result :=
  { ret := fun A a => Ok a;
    bind := fun A B r k => match r with Ok a => k a | Raise e => Raise e end }.

#[export] Instance ctor_monad : Monad ctor :=
  { ret := fun A a s => Ok (a, s);
    bind := fun A B c k s =>
              match c s with Ok (a, s') => k a s' | Raise e => Raise e end }.

Notation "x <- c ;; k" := (bind c (fun x => k))
  (at level 61, c at next level, right associativity).
Notation "' pat <- c ;; k" := (bind c (fun x => match x with pat => k end))
  (at level 61, pat pattern, c at next level, right associativity).

(** [super().__init__()]: the object comes into existence. *)
Definition fresh : ctor oid := fun s => Ok (s, S s).

Definition raise_ctor {A} (e : exn) : ctor A := fun _ => Raise e.

Definition lift {A} (r : result A) : ctor A :=
  fun s => match r with Ok a => Ok (a, s) | Raise e => Raise e end.

(** ** Tensors *)

Definition shape := list Z.

Definition shape_eqb (s1 s2 : shape) : bool :=
  if list_eq_dec Z.eq_dec s1 s2 then true else false.

(** An integer tensor: its shape and its entries in row-major order. *)
Record itensor : Type := { ishape : shape; idata : list Z }.

(** [torch.arange(n)] *)
Definition arange (n : Z) : list Z := map Z.of_nat (seq 0 (Z.to_nat n)).

Definition last_dim (s : shape) : result Z :=
  match rev s with
  | d :: _ => Ok d
  | [] => Raise (RuntimeError "dimension out of range")
  end.

Definition set_last_dim (s : shape) (d : Z) : shape := removelast s ++ [d].

(** [x.shape[-2:]] unpacked into two names. *)
Definition last_two (s : shape) : result (Z * Z) :=
  match rev s with
  | j :: i :: _ => Ok (i, j)
  | _ => Raise (ValueError "not enough values to unpack")
  end.

(** Broadcasting of two sizes, then of two shapes aligned on the right. *)
Definition broadcast_dim (a b : Z) : result Z :=
  if a =? b then Ok a
  else if a =? 1 then Ok b
  else if b =? 1 then Ok a
  else Raise (RuntimeError "the size of the tensors must match").

Fixpoint broadcast_rev (s1 s2 : list Z) : result (list Z) :=
  match s1, s2 with
  | [], _ => Ok s2
  | _, [] => Ok s1
  | a :: s1', b :: s2' =>
      d <- broadcast_dim a b ;;
      r <- broadcast_rev s1' s2' ;;
      Ok (d :: r)
  end.

Definition broadcast_shapes (s1 s2 : shape) : result shape :=
  r <- broadcast_rev (rev s1) (rev s2) ;; Ok (rev r).

(** [x.chunk(2, dim = -1)] unpacked into two names: pieces of size
    [ceil(s/2)]; a last axis of size one yields a single piece and the
    unpacking fails. *)
Definition chunk2 (s : shape) : result (shape * shape) :=
  d <- last_dim s ;;
  if d =? 0 then Ok (s, s)
  else
    let c := (d + 1) / 2 in
    if d - c =? 0 then Raise (ValueError "not enough values to unpack")
    else Ok (set_last_dim s c, set_last_dim s (d - c)).

(** [rearrange(q, 'b n (h d) -> b h n d', h = h)]: the number of axes is
    checked first; the length of [d] is then found by dividing by [h], and
    a zero [h] escapes as Python's [ZeroDivisionError]. *)
Definition rearrange_split_heads (s : shape) (h : Z) : result shape :=
  match s with
  | [b; n; hd] =>
      if h =? 0 then Raise ZeroDivisionError
      else if h <? 0 then Raise (EinopsError "axis length must be positive")
      else if hd mod h =? 0 then Ok [b; h; n; hd / h]
      else Raise (EinopsError "shape mismatch, cannot divide axis")
  | _ => Raise (EinopsError "wrong number of dimensions")
  end.

(** [rearrange(out, 'b h n d -> b n (h d)')] *)
Definition rearrange_merge_heads (s : shape) : result shape :=
  match s with
  | [b; h; n; d] => Ok [b; n; h * d]
  | _ => Raise (EinopsError "wrong number of dimensions")
  end.

(** [rearrange(values, 'i j h -> () h i j')] *)
Definition rearrange_bias (s : shape) : result shape :=
  match s with
  | [i; j; h] => Ok [1; h; i; j]
  | _ => Raise (EinopsError "wrong number of dimensions")
  end.

(** [einsum('b h i d, b j d -> b h i j', q, k)] *)
Definition einsum_qk (q k : shape) : result shape :=
  match q, k with
  | [b; h; i; d], [b'; j; d'] =>
      bb <- broadcast_dim b b' ;;
      _ <- broadcast_dim d d' ;;
      Ok [bb; h; i; j]
  | _, _ => Raise (RuntimeError "einsum: wrong number of subscripts")
  end.

(** [einsum('b h i j, b j d -> b h i d', attn, v)] *)
Definition einsum_av (a v : shape) : result shape :=
  match a, v with
  | [b; h; i; j], [b'; j'; d] =>
      bb <- broadcast_dim b b' ;;
      _ <- broadcast_dim j j' ;;
      Ok [bb; h; i; d]
  | _, _ => Raise (RuntimeError "einsum: wrong number of subscripts")
  end.

(** [x.masked_fill(mask, value)]: the mask must broadcast to the shape of
    [x]. *)
Definition masked_fill (x mask : shape) : result shape :=
  r <- broadcast_shapes x mask ;;
  if shape_eqb r x then Ok x
  else Raise (RuntimeError "mask is not broadcastable to the tensor").

(** [x.softmax(dim = -1)] *)
Definition softmax (x : shape) : result shape :=
  _ <- last_dim x ;; Ok x.

(** Python's [base ** exponent] for an integer base and a float exponent,
    kept symbolic. *)
Inductive scalar : Type := Pow (base : Z) (exponent : Q).

Definition py_pow (base : Z) (exponent : Q) : result scalar :=
  if (base =? 0) && negb (Qle_bool 0 exponent) then Raise ZeroDivisionError
  else Ok (Pow base exponent).

(** [x * c] for a float tensor [x] and a Python number [c]: the product has
    the shape of [x]; the number every entry was multiplied by is kept
    beside it. *)
Record scaled : Type := { scaled_shape : shape; factor : scalar }.

Definition mul_scalar (x : shape) (c : scalar) : scaled :=
  {| scaled_shape := x; factor := c |}.

(** ** The module interface

    [Forward] is the callable side of [nn.Module] on activations.  [Module]
    is the structural side used by [quantize_dynamic]: the affine layers
    reachable through registered children (one entry per occurrence), the
    in-place swap of every float [nn.Linear] for its dynamically quantized
    counterpart, and the renaming of object identifiers performed by a deep
    copy. *)

Module Linear.
(** [nn.Linear] or [torch.nn.quantized.dynamic.Linear]. *)
Inductive impl : Type := Float | DynamicQuantized.

Record t : Type :=
  { id : oid; in_features : Z; out_features : Z; bias : bool; weights : impl }.

(** [nn.Linear(in_features, out_features, bias = bias)]: the weight is
    allocated with [torch.empty], which rejects negative sizes. *)
Definition init (in_features out_features : Z) (bias : bool) : ctor t :=
  id <- fresh ;;
  if (in_features <? 0) || (out_features <? 0)
  then raise_ctor (RuntimeError "Trying to create tensor with negative dimension")
  else ret {| id := id; in_features := in_features;
              out_features := out_features; bias := bias; weights := Float |}.

Definition forward (self : t) (x : shape) : result shape :=
  d <- last_dim x ;;
  if d =? in_features self then Ok (set_last_dim x (out_features self))
  else Raise (RuntimeError "mat1 and mat2 shapes cannot be multiplied").

Definition quantize (self : t) : t :=
  {| id := id self; in_features := in_features self;
     out_features := out_features self; bias := bias self;
     weights := DynamicQuantized |}.

Definition rename (f : oid -> oid) (self : t) : t :=
  {| id := f (id self); in_features := in_features self;
     out_features := out_features self; bias := bias self;
     weights := weights self |}.
End Linear.

Class Forward (M : Type) : Type := forward : M -> shape -> result shape.

Class Module (M : Type) : Type :=
  { linears : M -> list Linear.t;
    convert : M -> M;
    relabel : (oid -> oid) -> M -> M }.

#[export] Instance Linear_Forward : Forward Linear.t := Linear.forward.
#[export] Instance Linear_Module : Module Linear.t :=
  { linears := fun l => [l];
    convert := Linear.quantize;
    relabel := Linear.rename }.

(** Containers of modules: a Python tuple and a Python list. *)
#[export] Instance pair_Forward {A B} `{Forward A} `{Forward B} : Forward (A * B) :=
  fun m x => y <- forward (fst m) x ;; forward (snd m) y.
#[export] Instance pair_Module {A B} `{Module A} `{Module B} : Module (A * B) :=
  { linears := fun m => linears (fst m) ++ linears (snd m);
    convert := fun m => (convert (fst m), convert (snd m));
    relabel := fun f m => (relabel f (fst m), relabel f (snd m)) }.
#[export] Instance list_Module {A} `{Module A} : Module (list A) :=
  { linears := fun ms => flat_map linears ms;
    convert := fun ms => map convert ms;
    relabel := fun f ms => map (relabel f) ms }.

(** [quantize_dynamic(model, {nn.Linear}, dtype = torch.qint8)]: the model
    is deep-copied (every object of the copy is new, sharing inside the copy
    is kept), then every [nn.Linear] of the copy is swapped. *)
Definition quantize_dynamic {M} `{Module M} (model : M) : ctor M :=
  fun s => Ok (convert (relabel (fun i => (s + i)%nat) model), (s + s)%nat).

Module LayerNorm.
Record t : Type := { id : oid; normalized_shape : Z }.

Definition init (dim : Z) : ctor t :=
  id <- fresh ;;
  if dim <? 0
  then raise_ctor (RuntimeError "Trying to create tensor with negative dimension")
  else ret {| id := id; normalized_shape := dim |}.

Definition forward (self : t) (x : shape) : result shape :=
  d <- last_dim x ;;
  if d =? normalized_shape self then Ok x
  else Raise (RuntimeError "input does not end with normalized_shape").
End LayerNorm.

#[export] Instance LayerNorm_Forward : Forward LayerNorm.t := LayerNorm.forward.
#[export] Instance LayerNorm_Module : Module LayerNorm.t :=
  { linears := fun _ => [];
    convert := fun m => m;
    relabel := fun f m => {| LayerNorm.id := f (LayerNorm.id m);
                             LayerNorm.normalized_shape := LayerNorm.normalized_shape m |} }.

Module Embedding.
Record t : Type := { id : oid; num_embeddings : Z; embedding_dim : Z }.

Definition init (num_embeddings embedding_dim : Z) : ctor t :=
  id <- fresh ;;
  if (num_embeddings <? 0) || (embedding_dim <? 0)
  then raise_ctor (RuntimeError "Trying to create tensor with negative dimension")
  else ret {| id := id; num_embeddings := num_embeddings;
              embedding_dim := embedding_dim |}.

(** The lookup raises on an index outside the table. *)
Definition forward (self : t) (x : itensor) : result shape :=
  if forallb (fun v => (0 <=? v) && (v <? num_embeddings self)) (idata x)
  then Ok (ishape x ++ [embedding_dim self])
  else Raise IndexError.
End Embedding.

#[export] Instance Embedding_Module : Module Embedding.t :=
  { linears := fun _ => [];
    convert := fun m => m;
    relabel := fun f m => {| Embedding.id := f (Embedding.id m);
                             Embedding.num_embeddings := Embedding.num_embeddings m;
                             Embedding.embedding_dim := Embedding.embedding_dim m |} }.

Module Dropout.
Record t : Type := { id : oid; p : Q }.

Definition init (p : Q) : ctor t :=
  id <- fresh ;;
  if Qle_bool 0 p && Qle_bool p 1 then ret {| id := id; p := p |}
  else raise_ctor (ValueError "dropout probability has to be between 0 and 1").

Definition forward (self : t) (x : shape) : result shape := Ok x.
End Dropout.

#[export] Instance Dropout_Forward : Forward Dropout.t := Dropout.forward.
#[export] Instance Dropout_Module : Module Dropout.t :=
  { linears := fun _ => [];
    convert := fun m => m;
    relabel := fun f m => {| Dropout.id := f (Dropout.id m); Dropout.p := Dropout.p m |} }.

(** [nn.Sequential(...)] and [nn.ModuleList([...])] around their payload. *)
Module Sequential.
Record t (A : Type) : Type := { id : oid; modules : A }.
Definition init {A} (modules : A) : ctor (t A) :=
  id <- fresh ;; ret {| id := id; modules := modules |}.
Definition forward {A} `{Forward A} (self : t A) (x : shape) : result shape :=
  forward (modules self) x.
End Sequential.

#[export] Instance Sequential_Forward {A} `{Forward A} : Forward (Sequential.t A) :=
  Sequential.forward.
#[export] Instance Sequential_Module {A} `{Module A} : Module (Sequential.t A) :=
  { linears := fun m => linears (Sequential.modules m);
    convert := fun m => {| Sequential.id := Sequential.id m;
                           Sequential.modules := convert (Sequential.modules m) |};
    relabel := fun f m => {| Sequential.id := f (Sequential.id m);
                             Sequential.modules := relabel f (Sequential.modules m) |} }.

Module ModuleList.
Record t (A : Type) : Type := { id : oid; modules : A }.
Definition init {A} (modules : A) : ctor (t A) :=
  id <- fresh ;; ret {| id := id; modules := modules |}.
End ModuleList.

#[export] Instance ModuleList_Module {A} `{Module A} : Module (ModuleList.t A) :=
  { linears := fun m => linears (ModuleList.modules m);
    convert := fun m => {| ModuleList.id := ModuleList.id m;
                           ModuleList.modules := convert (ModuleList.modules m) |};
    relabel := fun f m => {| ModuleList.id := f (ModuleList.id m);
                             ModuleList.modules := relabel f (ModuleList.modules m) |} }.

(** ** residual wrapper *)

Module Residual.
Record t (F : Type) : Type := { id : oid; fn : F }.

Definition init {F} (fn : F) : ctor (t F) :=
  id <- fresh ;; ret {| id := id; fn := fn |}.

(** [self.fn(x) + x] *)
Definition forward {F} `{Forward F} (self : t F) (x : shape) : result shape :=
  y <- forward (fn self) x ;; broadcast_shapes y x.
End Residual.

#[export] Instance Residual_Forward {F} `{Forward F} : Forward (Residual.t F) :=
  Residual.forward.
#[export] Instance Residual_Module {F} `{Module F} : Module (Residual.t F) :=
  { linears := fun m => linears (Residual.fn m);
    convert := fun m => {| Residual.id := Residual.id m;
                           Residual.fn := convert (Residual.fn m) |};
    relabel := fun f m => {| Residual.id := f (Residual.id m);
                             Residual.fn := relabel f (Residual.fn m) |} }.

(** ** pre-normalization wrapper *)

Module PreNorm.
Record t (F : Type) : Type := { id : oid; norm : LayerNorm.t; fn : F }.

Definition init {F} (dim : Z) (fn : F) : ctor (t F) :=
  id <- fresh ;;
  norm <- LayerNorm.init dim ;;
  ret {| id := id; norm := norm; fn := fn |}.

(** [self.fn(self.norm(x))] *)
Definition forward {F} `{Forward F} (self : t F) (x : shape) : result shape :=
  y <- LayerNorm.forward (norm self) x ;; forward (fn self) y.
End PreNorm.

#[export] Instance PreNorm_Forward {F} `{Forward F} : Forward (PreNorm.t F) :=
  PreNorm.forward.
#[export] Instance PreNorm_Module {F} `{Module F} : Module (PreNorm.t F) :=
  { linears := fun m => linears (PreNorm.fn m);
    convert := fun m => {| PreNorm.id := PreNorm.id m;
                           PreNorm.norm := PreNorm.norm m;
                           PreNorm.fn := convert (PreNorm.fn m) |};
    relabel := fun f m => {| PreNorm.id := f (PreNorm.id m);
                             PreNorm.norm := relabel f (PreNorm.norm m);
                             PreNorm.fn := relabel f (PreNorm.fn m) |} }.

(** ** activation functions *)

Module GEGLU.
(** [x, gates = x.chunk(2, dim = -1)] then [x * F.gelu(gates)] *)
Definition forward (x : shape) : result shape :=
  '(x, gates) <- chunk2 x ;; broadcast_shapes x gates.
End GEGLU.

Module SquaredRelu.
Record t : Type := { id : oid }.

Definition init : ctor t := id <- fresh ;; ret {| id := id |}.

(** On shapes the activation is elementwise. *)
Definition forward (self : t) (x : shape) : result shape := Ok x.

(** On values: [F.relu(x) ** 2], entry by entry over the whole tensor. *)
Definition relu (v : Q) : Q := if Qle_bool 0 v then v else 0%Q.
Definition forward_values (x : list Q) : list Q :=
  map (fun v => Qpower (relu v) 2) x.
End SquaredRelu.

#[export] Instance SquaredRelu_Forward : Forward SquaredRelu.t := SquaredRelu.forward.
#[export] Instance SquaredRelu_Module : Module SquaredRelu.t :=
  { linears := fun _ => [];
    convert := fun m => m;
    relabel := fun f m => {| SquaredRelu.id := f (SquaredRelu.id m) |} }.

(** ** feedforward layer *)

Module FeedForward.
Definition net_t : Type :=
  Sequential.t (Linear.t * SquaredRelu.t * Dropout.t * Linear.t).

Record t : Type := { id : oid; net : net_t }.

Definition default_mult : Z := 4.

Definition init (dim mult : Z) (dropout : Q) : ctor t :=
  id <- fresh ;;
  let inner_dim := dim * mult in
  l1 <- Linear.init dim (inner_dim * 2) true ;;
  act <- SquaredRelu.init ;;
  drop <- Dropout.init dropout ;;
  l2 <- Linear.init (inner_dim * 2) dim true ;;
  net <- Sequential.init (l1, act, drop, l2) ;;
  ret {| id := id; net := net |}.

Definition forward (self : t) (x : shape) : result shape :=
  forward (net self) x.
End FeedForward.

#[export] Instance FeedForward_Forward : Forward FeedForward.t := FeedForward.forward.
#[export] Instance FeedForward_Module : Module FeedForward.t :=
  { linears := fun m => linears (FeedForward.net m);
    convert := fun m => {| FeedForward.id := FeedForward.id m;
                           FeedForward.net := convert (FeedForward.net m) |};
    relabel := fun f m => {| FeedForward.id := f (FeedForward.id m);
                             FeedForward.net := relabel f (FeedForward.net m) |} }.

(** ** T5 relative positional bias *)

(** The entries of a [torch.long] tensor are 64-bit integers: an
    operation whose result leaves the range wraps around. *)
Definition int64_min : Z := - 2 ^ 63.

Definition int64_wrap (z : Z) : Z := (z + 2 ^ 63) mod 2 ^ 64 - 2 ^ 63.

(** A float32 value of the runtime: a real number (rounding is idealised
    away), or one of [inf], [-inf], [nan]. *)
Inductive f32 : Type := Finite (r : R) | NonFinite.

(** [torch.log] *)
Definition f32_log (x : f32) : f32 :=
  match x with
  | Finite r => if Rlt_dec 0 r then Finite (ln r) else NonFinite
  | NonFinite => NonFinite
  end.

(** A float tensor divided by a Python number: division by zero yields a
    non-finite entry, not an exception. *)
Definition f32_div (x : f32) (c : R) : f32 :=
  match x with
  | Finite r => if Req_dec_T c 0 then NonFinite else Finite (r / c)
  | NonFinite => NonFinite
  end.

Definition f32_mul (x : f32) (c : R) : f32 :=
  match x with
  | Finite r => Finite (r * c)
  | NonFinite => NonFinite
  end.

(** Rounding toward zero. *)
Definition Rtrunc (x : R) : Z :=
  if Rlt_dec x 0 then - Int_part (- x) else Int_part x.

(** [.long()]: truncation toward zero.  [inf], [-inf] and [nan] have no
    integer value; the conversion instruction of x86-64 writes the most
    negative 64-bit integer for them, and no exception is raised.  (A
    finite value beyond 64 bits is converted the same way by the runtime;
    here it keeps its truncated value.) *)
Definition f32_long (x : f32) : Z :=
  match x with
  | Finite r => Rtrunc r
  | NonFinite => int64_min
  end.

(** Python's [a / b] on integers and [math.log]. *)
Definition py_truediv (a b : Z) : result R :=
  if b =? 0 then Raise ZeroDivisionError else Ok (IZR a / IZR b)%R.

Definition math_log (x : R) : result R :=
  if Rlt_dec 0 x then Ok (ln x) else Raise (ValueError "math domain error").

Module T5RelativePositionBias.
Record t : Type :=
  { id : oid;
    scale : scalar;
    num_buckets : Z;
    max_distance : Z;
    relative_attention_bias : Embedding.t }.

Definition default_num_buckets : Z := 32.
Definition default_max_distance : Z := 128.

Definition init (scale : scalar) (num_buckets max_distance heads : Z) : ctor t :=
  id <- fresh ;;
  relative_attention_bias <- Embedding.init num_buckets heads ;;
  ret {| id := id; scale := scale; num_buckets := num_buckets;
         max_distance := max_distance;
         relative_attention_bias := relative_attention_bias |}.

(** One entry of the tensor computation of [_relative_position_bucket];
    [log_ratio] is [math.log(max_distance / max_exact)].  The negation is
    that of a 64-bit tensor.  [torch.where] evaluates [val_if_large] at
    every entry and selects afterwards, so an entry of the exact regime
    never sees the float computation. *)
Definition bucket_entry (num_buckets max_exact : Z) (log_ratio : R)
    (relative_position : Z) : Z :=
  let n := int64_wrap (- relative_position) in
  let n := Z.max n 0 in
  let is_small := n <? max_exact in
  let val_if_large :=
    max_exact +
    f32_long
      (f32_mul
         (f32_div (f32_log (f32_div (Finite (IZR n)) (IZR max_exact)))
                  log_ratio)
         (IZR (num_buckets - max_exact))) in
  let val_if_large := Z.min val_if_large (num_buckets - 1) in
  if is_small then n else val_if_large.

(** The two Python-level computations, [max_distance / max_exact] and
    [math.log], can raise; the tensor computation cannot. *)
Definition _relative_position_bucket (relative_position : itensor)
    (num_buckets max_distance : Z) : result itensor :=
  let max_exact := num_buckets / 2 in
  ratio <- py_truediv max_distance max_exact ;;
  log_ratio <- math_log ratio ;;
  Ok {| ishape := ishape relative_position;
        idata := map (bucket_entry num_buckets max_exact log_ratio)
                     (idata relative_position) |}.

(** [rearrange(k_pos, 'j -> 1 j') - rearrange(q_pos, 'i -> i 1')] *)
Definition rel_pos (i j : Z) : itensor :=
  {| ishape := [i; j];
     idata := flat_map (fun q => map (fun k => k - q) (arange j)) (arange i) |}.

Definition forward (self : t) (qk_dots : shape) : result shape :=
  '(i, j) <- last_two qk_dots ;;
  rp_bucket <- _relative_position_bucket (rel_pos i j)
                 (num_buckets self) (max_distance self) ;;
  values <- Embedding.forward (relative_attention_bias self) rp_bucket ;;
  bias <- rearrange_bias values ;;
  broadcast_shapes qk_dots (scaled_shape (mul_scalar bias (scale self))).
End T5RelativePositionBias.

#[export] Instance T5RelativePositionBias_Forward : Forward T5RelativePositionBias.t :=
  T5RelativePositionBias.forward.
#[export] Instance T5RelativePositionBias_Module : Module T5RelativePositionBias.t :=
  { linears := fun _ => [];
    convert := fun m => m;
    relabel := fun f m =>
      {| T5RelativePositionBias.id := f (T5RelativePositionBias.id m);
         T5RelativePositionBias.scale := T5RelativePositionBias.scale m;
         T5RelativePositionBias.num_buckets := T5RelativePositionBias.num_buckets m;
         T5RelativePositionBias.max_distance := T5RelativePositionBias.max_distance m;
         T5RelativePositionBias.relative_attention_bias :=
           relabel f (T5RelativePositionBias.relative_attention_bias m) |} }.

(** ** attention *)

Module Attention.
Record t : Type :=
  { id : oid;
    heads : Z;
    scale : scalar;
    dropout : Dropout.t;
    to_q : Linear.t;
    to_kv : Linear.t;
    to_out : Linear.t;
    rel_pos_bias : T5RelativePositionBias.t }.

Definition init (dim heads dim_head : Z) (dropout : Q) : ctor t :=
  id <- fresh ;;
  scale <- lift (py_pow dim_head (-1 # 2)) ;;
  let inner_dim := heads * dim_head in
  dropout <- Dropout.init dropout ;;
  to_q <- Linear.init dim inner_dim false ;;
  to_kv <- Linear.init dim (dim_head * 2) false ;;
  to_out <- Linear.init inner_dim dim true ;;
  bias_scale <- lift (py_pow dim_head (1 # 2)) ;;
  rel_pos_bias <- T5RelativePositionBias.init bias_scale
                    T5RelativePositionBias.default_num_buckets
                    T5RelativePositionBias.default_max_distance heads ;;
  ret {| id := id; heads := heads; scale := scale; dropout := dropout;
         to_q := to_q; to_kv := to_kv; to_out := to_out;
         rel_pos_bias := rel_pos_bias |}.

(** The projections at the head of [forward]:
    [q, k, v = (self.to_q(x), *self.to_kv(x).chunk(2, dim = -1))], then
    the split of [q] into heads and [q = q * self.scale]. *)
Definition project (self : t) (x : shape) : result (scaled * shape * shape) :=
  let h := heads self in
  q <- Linear.forward (to_q self) x ;;
  kv <- Linear.forward (to_kv self) x ;;
  '(k, v) <- chunk2 kv ;;
  q <- rearrange_split_heads q h ;;
  let q := mul_scalar q (scale self) in
  Ok (q, k, v).

(** [torch.ones((i, j), dtype = torch.bool).triu(j - i + 1)]: the entry
    at row [r] and column [c] survives when [c - r >= j - i + 1]. *)
Definition causal_mask (i j : Z) (r c : Z) : bool := (j - i + 1 <=? c - r).

(** The value written under the mask: [-torch.finfo(sim.dtype).max]. *)
Inductive fill_value : Type := neg_finfo_max | neg_infinity.
Definition mask_value : fill_value := neg_finfo_max.

(** [sim.masked_fill(causal_mask, mask_value)] on the entries of one
    similarity matrix, whatever the type of the computed entries. *)
Inductive entry (A : Type) : Type := Computed (a : A) | Filled (v : fill_value).
Definition masked_fill_values {A} (i j : Z) (sim : Z -> Z -> A) (r c : Z) : entry A :=
  if causal_mask i j r c then Filled A mask_value else Computed (sim r c).

Definition forward (self : t) (x : shape) : result shape :=
  '(q, k, v) <- project self x ;;
  sim <- einsum_qk (scaled_shape q) k ;;
  '(i, j) <- last_two sim ;;
  sim <- T5RelativePositionBias.forward (rel_pos_bias self) sim ;;
  let causal_mask := [i; j] in
  sim <- masked_fill sim causal_mask ;;
  attn <- softmax sim ;;
  attn <- Dropout.forward (dropout self) attn ;;
  out <- einsum_av attn v ;;
  out <- rearrange_merge_heads out ;;
  Linear.forward (to_out self) out.
End Attention.

#[export] Instance Attention_Forward : Forward Attention.t := Attention.forward.
#[export] Instance Attention_Module : Module Attention.t :=
  { linears := fun m => [Attention.to_q m; Attention.to_kv m; Attention.to_out m];
    convert := fun m =>
      {| Attention.id := Attention.id m; Attention.heads := Attention.heads m;
         Attention.scale := Attention.scale m;
         Attention.dropout := Attention.dropout m;
         Attention.to_q := convert (Attention.to_q m);
         Attention.to_kv := convert (Attention.to_kv m);
         Attention.to_out := convert (Attention.to_out m);
         Attention.rel_pos_bias := Attention.rel_pos_bias m |};
    relabel := fun f m =>
      {| Attention.id := f (Attention.id m); Attention.heads := Attention.heads m;
         Attention.scale := Attention.scale m;
         Attention.dropout := relabel f (Attention.dropout m);
         Attention.to_q := relabel f (Attention.to_q m);
         Attention.to_kv := relabel f (Attention.to_kv m);
         Attention.to_out := relabel f (Attention.to_out m);
         Attention.rel_pos_bias := relabel f (Attention.rel_pos_bias m) |} }.

(** ** Transformer *)

Module Transformer.
Definition attn_t : Type := Residual.t (PreNorm.t Attention.t).
Definition ff_t : Type := Residual.t (PreNorm.t FeedForward.t).
Definition layer_t : Type := ModuleList.t (attn_t * ff_t).

Record t : Type := { id : oid; layers : ModuleList.t (list layer_t) }.

(** One turn of the loop: the entry appended to [self.layers]. *)
Definition layer (dim : Z) (attn : Attention.t) (ffn : FeedForward.t) : ctor layer_t :=
  pa <- PreNorm.init dim attn ;;
  ra <- Residual.init pa ;;
  pf <- PreNorm.init dim ffn ;;
  rf <- Residual.init pf ;;
  ModuleList.init (ra, rf).

(** [for _ in range(depth): self.layers.append(...)] *)
Fixpoint append_layers (depth : nat) (dim : Z) (attn : Attention.t)
    (ffn : FeedForward.t) : ctor (list layer_t) :=
  match depth with
  | O => ret []
  | S depth' =>
      l <- layer dim attn ffn ;;
      ls <- append_layers depth' dim attn ffn ;;
      ret (l :: ls)
  end.

Definition init (dim depth heads dim_head : Z) (dropout : Q) (quantized : bool)
  : ctor t :=
  id <- fresh ;;
  layers_id <- fresh ;;
  attn <- Attention.init dim heads dim_head dropout ;;
  ffn <- FeedForward.init dim FeedForward.default_mult dropout ;;
  attn <- (if quantized then quantize_dynamic attn else ret attn) ;;
  ffn <- (if quantized then quantize_dynamic ffn else ret ffn) ;;
  ls <- append_layers (Z.to_nat depth) dim attn ffn ;;
  ret {| id := id;
         layers := {| ModuleList.id := layers_id; ModuleList.modules := ls |} |}.

Definition forward_layer (l : layer_t) (x : shape) : result shape :=
  let '(attn, ff) := ModuleList.modules l in
  x <- forward attn x ;;
  forward ff x.

Fixpoint forward_layers (ls : list layer_t) (x : shape) : result shape :=
  match ls with
  | [] => Ok x
  | l :: ls' => x <- forward_layer l x ;; forward_layers ls' x
  end.

Definition forward (self : t) (x : shape) : result shape :=
  forward_layers (ModuleList.modules (layers self)) x.
End Transformer.

#[export] Instance Transformer_Forward : Forward Transformer.t := Transformer.forward.
#[export] Instance Transformer_Module : Module Transformer.t :=
  { linears := fun m => linears (Transformer.layers m);
    convert := fun m => {| Transformer.id := Transformer.id m;
                           Transformer.layers := convert (Transformer.layers m) |};
    relabel := fun f m => {| Transformer.id := f (Transformer.id m);
                             Transformer.layers := relabel f (Transformer.layers m) |} }.

(** ** LaMDA Model *)

Module LaMDA.
Record t : Type :=
  { id : oid;
    num_tokens : Z;
    dim : Z;
    token_emb : Embedding.t;
    transformer : Transformer.t;
    to_logits : Sequential.t (LayerNorm.t * Linear.t) }.

Definition init (num_tokens dim depth dim_head heads : Z)
    (quantized_transformer : bool) : ctor t :=
  id <- fresh ;;
  token_emb <- Embedding.init num_tokens dim ;;
  (* Transformer(dim, depth, dim_head, heads, quantized = ...) against the
     signature (dim, depth, heads, dim_head, dropout, quantized) *)
  transformer <- Transformer.init dim depth dim_head heads 0 quantized_transformer ;;
  norm <- LayerNorm.init dim ;;
  proj <- Linear.init dim num_tokens true ;;
  to_logits <- Sequential.init (norm, proj) ;;
  ret {| id := id; num_tokens := num_tokens; dim := dim;
         token_emb := token_emb; transformer := transformer;
         to_logits := to_logits |}.

Definition forward (self : t) (x : itensor) : result shape :=
  x <- Embedding.forward (token_emb self) x ;;
  x <- forward (transformer self) x ;;
  forward (to_logits self) x.
End LaMDA.

#[export] Instance LaMDA_Module : Module LaMDA.t :=
  { linears := fun m => linears (LaMDA.transformer m) ++ linears (LaMDA.to_logits m);
    convert := fun m =>
      {| LaMDA.id := LaMDA.id m; LaMDA.num_tokens := LaMDA.num_tokens m;
         LaMDA.dim := LaMDA.dim m; LaMDA.token_emb := convert (LaMDA.token_emb m);
         LaMDA.transformer := convert (LaMDA.transformer m);
         LaMDA.to_logits := convert (LaMDA.to_logits m) |};
    relabel := fun f m =>
      {| LaMDA.id := f (LaMDA.id m); LaMDA.num_tokens := LaMDA.num_tokens m;
         LaMDA.dim := LaMDA.dim m; LaMDA.token_emb := relabel f (LaMDA.token_emb m);
         LaMDA.transformer := relabel f (LaMDA.transformer m);
         LaMDA.to_logits := relabel f (LaMDA.to_logits m) |} }.

(** The configuration object [CFG] of [lamda_pytorch.config.config], whose
    file is not part of the sources at hand, is taken as a parameter. *)
Record config : Type :=
  { cfg_num_tokens : Z; cfg_dim : Z; cfg_depth : Z; cfg_dim_head : Z; cfg_heads : Z }.

Definition lamda_model (CFG : config) (quantized_logits quantized_transformer : bool)
  : ctor LaMDA.t :=
  model <- LaMDA.init (cfg_num_tokens CFG) (cfg_dim CFG) (cfg_depth CFG)
             (cfg_dim_head CFG) (cfg_heads CFG) quantized_transformer ;;
  if quantized_logits then
    quantized_model <- quantize_dynamic model ;;
    ret quantized_model
  else ret model.

(** ** Observations on constructed stacks *)

Definition stack (tr : Transformer.t) : list Transformer.layer_t :=
  ModuleList.modules (Transformer.layers tr).

Definition attn_wrapper (l : Transformer.layer_t) : PreNorm.t Attention.t :=
  Residual.fn (fst (ModuleList.modules l)).
Definition ff_wrapper (l : Transformer.layer_t) : PreNorm.t FeedForward.t :=
  Residual.fn (snd (ModuleList.modules l)).

Definition attn_of (l : Transformer.layer_t) : Attention.t := PreNorm.fn (attn_wrapper l).
Definition ffn_of (l : Transformer.layer_t) : FeedForward.t := PreNorm.fn (ff_wrapper l).

(** The normalisation objects owned by the pre-normalisation wrappers of a
    stack, in order of construction. *)
Definition wrapper_norms (ls : list Transformer.layer_t) : list LayerNorm.t :=
  flat_map (fun l => [PreNorm.norm (attn_wrapper l); PreNorm.norm (ff_wrapper l)]) ls.

(** The entry appended by the turn of the loop that starts with the next
    free identifier [s]. *)
Definition layer_at (dim : Z) (attn : Attention.t) (ffn : FeedForward.t) (s : oid)
  : Transformer.layer_t :=
  {| ModuleList.id := (s + 6)%nat;
     ModuleList.modules :=
       ({| Residual.id := (s + 2)%nat;
           Residual.fn :=
             {| PreNorm.id := s;
                PreNorm.norm := {| LayerNorm.id := (s + 1)%nat;
                                   LayerNorm.normalized_shape := dim |};
                PreNorm.fn := attn |} |},
        {| Residual.id := (s + 5)%nat;
           Residual.fn :=
             {| PreNorm.id := (s + 3)%nat;
                PreNorm.norm := {| LayerNorm.id := (s + 4)%nat;
                                   LayerNorm.normalized_shape := dim |};
                PreNorm.fn := ffn |} |}) |}.

(** The sizes an attention block has when built for [dim], [heads] and
    [dim_head]; a quantized copy has them too. *)
Record Attention_sizes (a : Attention.t) (dim heads dim_head : Z) : Prop :=
  { as_heads : Attention.heads a = heads;
    as_scale : Attention.scale a = Pow dim_head (-1 # 2);
    as_q_in : Linear.in_features (Attention.to_q a) = dim;
    as_q_out : Linear.out_features (Attention.to_q a) = heads * dim_head;
    as_q_bias : Linear.bias (Attention.to_q a) = false;
    as_kv_in : Linear.in_features (Attention.to_kv a) = dim;
    as_kv_out : Linear.out_features (Attention.to_kv a) = dim_head * 2;
    as_kv_bias : Linear.bias (Attention.to_kv a) = false;
    as_out_in : Linear.in_features (Attention.to_out a) = heads * dim_head;
    as_out_out : Linear.out_features (Attention.to_out a) = dim;
    as_bias_scale :
      T5RelativePositionBias.scale (Attention.rel_pos_bias a) = Pow dim_head (1 # 2);
    as_buckets :
      T5RelativePositionBias.num_buckets (Attention.rel_pos_bias a) = 32;
    as_distance :
      T5RelativePositionBias.max_distance (Attention.rel_pos_bias a) = 128;
    as_table_rows :
      Embedding.num_embeddings
        (T5RelativePositionBias.relative_attention_bias (Attention.rel_pos_bias a)) = 32;
    as_table_cols :
      Embedding.embedding_dim
        (T5RelativePositionBias.relative_attention_bias (Attention.rel_pos_bias a)) = heads }.

Definition ff_first (f : FeedForward.t) : Linear.t :=
  fst (fst (fst (Sequential.modules (FeedForward.net f)))).
Definition ff_activation (f : FeedForward.t) : SquaredRelu.t :=
  snd (fst (fst (Sequential.modules (FeedForward.net f)))).
Definition ff_dropout (f : FeedForward.t) : Dropout.t :=
  snd (fst (Sequential.modules (FeedForward.net f))).
Definition ff_second (f : FeedForward.t) : Linear.t :=
  snd (Sequential.modules (FeedForward.net f)).

Record FeedForward_sizes (f : FeedForward.t) (dim mult : Z) : Prop :=
  { fs_first_in : Linear.in_features (ff_first f) = dim;
    fs_first_out : Linear.out_features (ff_first f) = dim * mult * 2;
    fs_second_in : Linear.in_features (ff_second f) = dim * mult * 2;
    fs_second_out : Linear.out_features (ff_second f) = dim }.

(** The sizes of one layer of the stack and of a whole model. *)
Record Layer_sizes (l : Transformer.layer_t) (dim heads dim_head : Z) : Prop :=
  { ls_attn_norm : LayerNorm.normalized_shape (PreNorm.norm (attn_wrapper l)) = dim;
    ls_ff_norm : LayerNorm.normalized_shape (PreNorm.norm (ff_wrapper l)) = dim;
    ls_attn : Attention_sizes (attn_of l) dim heads dim_head;
    ls_ffn : FeedForward_sizes (ffn_of l) dim FeedForward.default_mult }.

Definition logits_norm (m : LaMDA.t) : LayerNorm.t :=
  fst (Sequential.modules (LaMDA.to_logits m)).
Definition logits_proj (m : LaMDA.t) : Linear.t :=
  snd (Sequential.modules (LaMDA.to_logits m)).

Record LaMDA_sizes (m : LaMDA.t) (num_tokens dim heads dim_head : Z) : Prop :=
  { ms_rows : Embedding.num_embeddings (LaMDA.token_emb m) = num_tokens;
    ms_cols : Embedding.embedding_dim (LaMDA.token_emb m) = dim;
    ms_layers : Forall (fun l => Layer_sizes l dim heads dim_head)
                       (stack (LaMDA.transformer m));
    ms_norm : LayerNorm.normalized_shape (logits_norm m) = dim;
    ms_proj_in : Linear.in_features (logits_proj m) = dim;
    ms_proj_out : Linear.out_features (logits_proj m) = num_tokens }.

(** The clamped distance, [torch.max(-relative_position, 0)], of a
    relative position held in a 64-bit tensor. *)
Definition clamped_distance (relative_position : Z) : Z :=
  Z.max (int64_wrap (- relative_position)) 0.

(** The real number handed to [.long()] at clamped distance [n]. *)
Definition large_index (num_buckets max_distance n : Z) : R :=
  (ln (IZR n / IZR (num_buckets / 2)) /
   ln (IZR max_distance / IZR (num_buckets / 2)) *
   IZR (num_buckets - num_buckets / 2))%R.

(** The configuration of the end-to-end scenario of the specification. *)
Definition demo_config : config :=
  {| cfg_num_tokens := 100; cfg_dim := 32; cfg_depth := 2;
     cfg_dim_head := 8; cfg_heads := 4 |}.

(** ** Trainable parameters and the driver *)

(** A registered parameter tensor: the object that owns it, its name and
    its number of elements. *)
Inductive pname : Type := Weight | Bias.

Record param : Type := { p_owner : oid; p_name : pname; p_numel : Z }.

Definition param_eq_dec (p q : param) : {p = q} + {p <> q}.
Proof. repeat decide equality. Defined.

(** The parameters met when walking a module and its registered children
    in registration order, one entry per occurrence.  A float [nn.Linear]
    owns a weight of [out_features * in_features] entries and, with
    [bias = True], a bias; its dynamically quantized counterpart keeps its
    weights packed and registers no parameter.  [nn.LayerNorm] owns a
    weight and a bias, [nn.Embedding] its table. *)
Class Parameters (M : Type) : Type := named_parameters : M -> list param.

#[export] Instance Linear_Parameters : Parameters Linear.t :=
  fun l =>
    match Linear.weights l with
    | Linear.Float =>
        {| p_owner := Linear.id l; p_name := Weight;
           p_numel := Linear.out_features l * Linear.in_features l |}
        :: (if Linear.bias l
            then [{| p_owner := Linear.id l; p_name := Bias;
                     p_numel := Linear.out_features l |}]
            else [])
    | Linear.DynamicQuantized => []
    end.

#[export] Instance LayerNorm_Parameters : Parameters LayerNorm.t :=
  fun n =>
    [{| p_owner := LayerNorm.id n; p_name := Weight;
        p_numel := LayerNorm.normalized_shape n |};
     {| p_owner := LayerNorm.id n; p_name := Bias;
        p_numel := LayerNorm.normalized_shape n |}].

#[export] Instance Embedding_Parameters : Parameters Embedding.t :=
  fun e =>
    [{| p_owner := Embedding.id e; p_name := Weight;
        p_numel := Embedding.num_embeddings e * Embedding.embedding_dim e |}].

#[export] Instance Dropout_Parameters : Parameters Dropout.t := fun _ => [].
#[export] Instance SquaredRelu_Parameters : Parameters SquaredRelu.t := fun _ => [].

#[export] Instance pair_Parameters {A B} `{Parameters A} `{Parameters B}
  : Parameters (A * B) :=
  fun m => named_parameters (fst m) ++ named_parameters (snd m).
#[export] Instance list_Parameters {A} `{Parameters A} : Parameters (list A) :=
  fun ms => flat_map named_parameters ms.
#[export] Instance Sequential_Parameters {A} `{Parameters A}
  : Parameters (Sequential.t A) :=
  fun m => named_parameters (Sequential.modules m).
#[export] Instance ModuleList_Parameters {A} `{Parameters A}
  : Parameters (ModuleList.t A) :=
  fun m => named_parameters (ModuleList.modules m).
#[export] Instance Residual_Parameters {F} `{Parameters F} : Parameters (Residual.t F) :=
  fun m => named_parameters (Residual.fn m).
#[export] Instance PreNorm_Parameters {F} `{Parameters F} : Parameters (PreNorm.t F) :=
  fun m => named_parameters (PreNorm.norm m) ++ named_parameters (PreNorm.fn m).
#[export] Instance FeedForward_Parameters : Parameters FeedForward.t :=
  fun m => named_parameters (FeedForward.net m).
#[export] Instance T5RelativePositionBias_Parameters
  : Parameters T5RelativePositionBias.t :=
  fun m => named_parameters (T5RelativePositionBias.relative_attention_bias m).
#[export] Instance Attention_Parameters : Parameters Attention.t :=
  fun m =>
    named_parameters (Attention.dropout m) ++ named_parameters (Attention.to_q m) ++
    named_parameters (Attention.to_kv m) ++ named_parameters (Attention.to_out m) ++
    named_parameters (Attention.rel_pos_bias m).
#[export] Instance Transformer_Parameters : Parameters Transformer.t :=
  fun m => named_parameters (Transformer.layers m).
#[export] Instance LaMDA_Parameters : Parameters LaMDA.t :=
  fun m =>
    named_parameters (LaMDA.token_emb m) ++ named_parameters (LaMDA.transformer m) ++
    named_parameters (LaMDA.to_logits m).

(** [model.parameters()]: every parameter tensor once, at its first
    occurrence. *)
Fixpoint unique (seen l : list param) : list param :=
  match l with
  | [] => []
  | p :: l' =>
      if in_dec param_eq_dec p seen then unique seen l'
      else p :: unique (p :: seen) l'
  end.

Definition parameters {M} `{Parameters M} (model : M) : list param :=
  unique [] (named_parameters model).

Definition total_numel (ps : list param) : Z :=
  fold_right Z.add 0 (map p_numel ps).

(** [sum(p.numel() for p in model.parameters() if p.requires_grad)]: every
    registered parameter requires a gradient. *)
Definition n_params {M} `{Parameters M} (model : M) : Z :=
  total_numel (parameters model).

(** The driver under [if __name__ == "__main__"]: what it prints.
    [tokens] stands for the outcome of
    [torch.randint(0, lamda_base.num_tokens, (1, lamda_base.dim))]. *)
Definition main (CFG : config) (tokens : itensor) : ctor (shape * Z) :=
  lamda_base <- lamda_model CFG false false ;;
  logits <- lift (LaMDA.forward lamda_base tokens) ;;
  ret (logits, n_params lamda_base).

(** The parameter lists of the blocks, with the owners they have when the
    block is constructed from the free identifier [s]. *)
Definition norm_params (id : oid) (dim : Z) : list param :=
  [{| p_owner := id; p_name := Weight; p_numel := dim |};
   {| p_owner := id; p_name := Bias; p_numel := dim |}].

Definition attention_params (s : oid) (dim heads dim_head : Z) : list param :=
  [{| p_owner := (s + 2)%nat; p_name := Weight; p_numel := heads * dim_head * dim |};
   {| p_owner := (s + 3)%nat; p_name := Weight; p_numel := dim_head * 2 * dim |};
   {| p_owner := (s + 4)%nat; p_name := Weight; p_numel := dim * (heads * dim_head) |};
   {| p_owner := (s + 4)%nat; p_name := Bias; p_numel := dim |};
   {| p_owner := (s + 6)%nat; p_name := Weight; p_numel := 32 * heads |}].

Definition feedforward_params (s : oid) (dim mult : Z) : list param :=
  [{| p_owner := (s + 1)%nat; p_name := Weight; p_numel := dim * mult * 2 * dim |};
   {| p_owner := (s + 1)%nat; p_name := Bias; p_numel := dim * mult * 2 |};
   {| p_owner := (s + 4)%nat; p_name := Weight; p_numel := dim * (dim * mult * 2) |};
   {| p_owner := (s + 4)%nat; p_name := Bias; p_numel := dim |}].

(** The keys a query position may attend to in a sequence of length [n]. *)
Definition visible_keys (n query_pos : Z) : list Z :=
  filter (fun key_pos => negb (Attention.causal_mask n n query_pos key_pos))
         (arange n).

(** * Proofs *)

Ltac ctor_inv H :=
  cbn in H;
  repeat (match type of H with
          | context [if ?c then _ else _] =>
              destruct c eqn:?; cbn in H; try discriminate H
          end).

(** ** Shapes *)

Lemma broadcast_dim_same a : broadcast_dim a a = Ok a.
Proof. unfold broadcast_dim. now rewrite Z.eqb_refl. Qed.

Lemma broadcast_dim_one_r a : broadcast_dim a 1 = Ok a.
Proof.
  unfold broadcast_dim. destruct (a =? 1) eqn:E.
  - apply Z.eqb_eq in E. now subst.
  - reflexivity.
Qed.

Lemma shape_eqb_refl s : shape_eqb s s = true.
Proof. unfold shape_eqb. destruct (list_eq_dec Z.eq_dec s s); congruence. Qed.

Lemma broadcast_rev_same s : broadcast_rev s s = Ok s.
Proof.
  induction s as [|a s IH]; cbn; [reflexivity|].
  rewrite broadcast_dim_same. cbn. now rewrite IH.
Qed.

Lemma broadcast_shapes_same s : broadcast_shapes s s = Ok s.
Proof.
  unfold broadcast_shapes. rewrite broadcast_rev_same. cbn.
  now rewrite rev_involutive.
Qed.

(** ** Constructors *)

Lemma Transformer_layer_ok dim attn ffn s :
  0 <= dim ->
  Transformer.layer dim attn ffn s = Ok (layer_at dim attn ffn s, (s + 7)%nat).
Proof.
  intros Hd.
  unfold Transformer.layer, PreNorm.init, Residual.init, ModuleList.init,
    LayerNorm.init, fresh, layer_at.
  cbn. assert (E : (dim <? 0) = false) by lia. rewrite E. cbn.
  repeat f_equal; lia.
Qed.

Lemma Transformer_layer_neg dim attn ffn s :
  dim < 0 -> is_ok (Transformer.layer dim attn ffn s) = false.
Proof.
  intros Hd.
  unfold Transformer.layer, PreNorm.init, LayerNorm.init, fresh, raise_ctor.
  cbn. assert (E : (dim <? 0) = true) by lia. now rewrite E.
Qed.

Lemma append_layers_ok n dim attn ffn : forall s,
  0 <= dim ->
  Transformer.append_layers n dim attn ffn s =
  Ok (map (fun k => layer_at dim attn ffn (s + 7 * k)%nat) (seq 0 n),
      (s + 7 * n)%nat).
Proof.
  induction n as [|n IH]; intros s Hd.
  - cbn. do 2 f_equal. lia.
  - cbn [Transformer.append_layers]. cbn [bind ctor_monad].
    rewrite Transformer_layer_ok by assumption.
    rewrite IH by assumption. cbn [ret].
    cbn [seq map]. rewrite <- seq_shift, map_map.
    unfold ret; cbn [ctor_monad].
    replace (s + 7 * 0)%nat with s by lia.
    replace (s + 7 + 7 * n)%nat with (s + 7 * S n)%nat by lia.
    do 3 f_equal. apply map_ext. intros k. f_equal. lia.
Qed.

Lemma append_layers_inv n dim attn ffn s ls s' :
  Transformer.append_layers n dim attn ffn s = Ok (ls, s') ->
  ls = map (fun k => layer_at dim attn ffn (s + 7 * k)%nat) (seq 0 n) /\
  length ls = n.
Proof.
  intros H. destruct (Z_lt_ge_dec dim 0) as [Hneg|Hpos].
  - destruct n as [|n].
    + cbn in H. inversion H. now split.
    + cbn [Transformer.append_layers bind ctor_monad] in H.
      pose proof (Transformer_layer_neg attn ffn s Hneg) as E.
      destruct (Transformer.layer dim attn ffn s) as [[l s1]|e];
        [discriminate E | discriminate H].
  - rewrite append_layers_ok in H by lia. inversion H. split; [reflexivity|].
    now rewrite length_map, length_seq.
Qed.

Ltac step_bind H :=
  match type of H with
  | match ?c with Ok _ => _ | Raise _ => _ end = Ok _ =>
      let E := fresh "E" in
      destruct c as [[? ?]|?] eqn:E; [|discriminate H]
  end.

Lemma Attention_init_inv dim heads dim_head p s a s' :
  Attention.init dim heads dim_head p s = Ok (a, s') ->
  Attention_sizes a dim heads dim_head /\ Attention.id a = s /\ s' = (s + 7)%nat.
Proof.
  intros H.
  unfold Attention.init, T5RelativePositionBias.init, Linear.init, Dropout.init,
    Embedding.init, py_pow, lift, raise_ctor, fresh in H.
  ctor_inv H. inversion H; subst. split; [constructor; reflexivity|].
  split; [reflexivity|lia].
Qed.

Lemma Attention_init_ok dim heads dim_head s :
  0 <= dim -> 0 <= heads -> 0 < dim_head ->
  exists a, Attention.init dim heads dim_head 0 s = Ok (a, (s + 7)%nat).
Proof.
  intros Hd Hh Hdh.
  unfold Attention.init, T5RelativePositionBias.init, Linear.init, Dropout.init,
    Embedding.init, py_pow, lift, raise_ctor, fresh.
  cbn.
  assert (E1 : (dim_head =? 0) = false) by lia.
  assert (E2 : (dim <? 0) = false) by lia.
  assert (E3 : (heads * dim_head <? 0) = false) by nia.
  assert (E4 : (dim_head * 2 <? 0) = false) by lia.
  assert (E5 : (heads <? 0) = false) by lia.
  rewrite E1, E2, E3, E4, E5. cbn. eexists. do 2 f_equal. lia.
Qed.

Lemma Attention_quantized_sizes f a dim heads dim_head :
  Attention_sizes a dim heads dim_head ->
  Attention_sizes (convert (relabel f a)) dim heads dim_head.
Proof. intros []. constructor; assumption. Qed.

Lemma FeedForward_init_inv dim mult p s f s' :
  FeedForward.init dim mult p s = Ok (f, s') ->
  FeedForward_sizes f dim mult /\ FeedForward.id f = s /\ s' = (s + 6)%nat /\
  Dropout.p (ff_dropout f) = p.
Proof.
  intros H.
  unfold FeedForward.init, Sequential.init, SquaredRelu.init, Linear.init,
    Dropout.init, raise_ctor, fresh in H.
  ctor_inv H. inversion H; subst. split; [constructor; reflexivity|].
  repeat split; try reflexivity; lia.
Qed.

Lemma FeedForward_init_ok dim mult s :
  0 <= dim -> 0 <= mult ->
  exists f, FeedForward.init dim mult 0 s = Ok (f, (s + 6)%nat).
Proof.
  intros Hd Hm.
  unfold FeedForward.init, Sequential.init, SquaredRelu.init, Linear.init,
    Dropout.init, raise_ctor, fresh.
  cbn.
  assert (E1 : (dim <? 0) = false) by lia.
  assert (E2 : (dim * mult * 2 <? 0) = false) by nia.
  rewrite E1, E2. cbn. eexists. do 2 f_equal. lia.
Qed.

Lemma FeedForward_quantized_sizes g f dim mult :
  FeedForward_sizes f dim mult ->
  FeedForward_sizes (convert (relabel g f)) dim mult.
Proof. intros []. constructor; assumption. Qed.

Lemma Transformer_init_inv dim depth heads dim_head p q s tr s' :
  Transformer.init dim depth heads dim_head p q s = Ok (tr, s') ->
  exists attn ffn s1,
    Attention_sizes attn dim heads dim_head /\
    FeedForward_sizes ffn dim FeedForward.default_mult /\
    stack tr = map (fun k => layer_at dim attn ffn (s1 + 7 * k)%nat)
                   (seq 0 (Z.to_nat depth)).
Proof.
  intros H. unfold Transformer.init in H.
  cbn [bind ctor_monad fresh] in H.
  step_bind H. apply Attention_init_inv in E as (Ha & _ & _).
  step_bind H. apply FeedForward_init_inv in E as (Hf & _ & _ & _).
  destruct q; cbn [quantize_dynamic ret ctor_monad] in H;
    step_bind H; apply append_layers_inv in E as [E _];
    inversion H; subst; unfold stack;
    cbn [Transformer.layers ModuleList.modules];
    eexists _, _, _; (split; [|split; [|reflexivity]]);
    auto using Attention_quantized_sizes, FeedForward_quantized_sizes.
Qed.

Lemma LaMDA_init_inv num_tokens dim depth dim_head heads q s m s' :
  LaMDA.init num_tokens dim depth dim_head heads q s = Ok (m, s') ->
  exists s1,
    Transformer.init dim depth dim_head heads 0 q (s + 2)%nat
      = Ok (LaMDA.transformer m, s1) /\
    Embedding.num_embeddings (LaMDA.token_emb m) = num_tokens /\
    Embedding.embedding_dim (LaMDA.token_emb m) = dim /\
    LayerNorm.normalized_shape (fst (Sequential.modules (LaMDA.to_logits m))) = dim /\
    Linear.in_features (snd (Sequential.modules (LaMDA.to_logits m))) = dim /\
    Linear.out_features (snd (Sequential.modules (LaMDA.to_logits m))) = num_tokens /\
    Linear.weights (snd (Sequential.modules (LaMDA.to_logits m))) = Linear.Float.
Proof.
  intros H. unfold LaMDA.init in H.
  cbn [bind ctor_monad fresh] in H.
  step_bind H. step_bind H.
  replace (S (S s)) with (s + 2)%nat in * by lia.
  unfold Embedding.init, fresh, raise_ctor in E. ctor_inv E. inversion E; subst.
  unfold LayerNorm.init, Linear.init, Sequential.init, fresh, raise_ctor in H.
  ctor_inv H. inversion H; subst. cbn.
  replace (S (S s)) with (s + 2)%nat in * by lia.
  eexists. split; [exact E0|]. repeat split.
Qed.

Lemma Transformer_init_ok dim depth heads dim_head q s :
  0 <= dim -> 0 <= heads -> 0 < dim_head ->
  exists tr s', Transformer.init dim depth heads dim_head 0 q s = Ok (tr, s').
Proof.
  intros Hd Hh Hdh. unfold Transformer.init.
  cbn [bind ctor_monad fresh].
  destruct (Attention_init_ok (S (S s)) Hd Hh Hdh) as [a Ha]. rewrite Ha.
  destruct (@FeedForward_init_ok dim FeedForward.default_mult (S (S s) + 7)%nat Hd)
    as [f Hf]; [unfold FeedForward.default_mult; lia|]. rewrite Hf.
  destruct q; unfold quantize_dynamic; cbn [ret ctor_monad];
    rewrite append_layers_ok by assumption; eauto.
Qed.

Lemma LaMDA_init_ok num_tokens dim depth dim_head heads q s :
  0 <= num_tokens -> 0 <= dim -> 0 <= dim_head -> 0 < heads ->
  exists m s', LaMDA.init num_tokens dim depth dim_head heads q s = Ok (m, s').
Proof.
  intros Hn Hd Hdh Hh. unfold LaMDA.init.
  cbn [bind ctor_monad fresh].
  unfold Embedding.init at 1. cbn [bind ctor_monad fresh].
  assert (E1 : (num_tokens <? 0) = false) by lia.
  assert (E2 : (dim <? 0) = false) by lia.
  rewrite E1, E2. cbn [orb ret ctor_monad].
  destruct (Transformer_init_ok depth q (S (S s)) Hd Hdh Hh) as (tr & s1 & Htr).
  rewrite Htr.
  unfold LayerNorm.init, Linear.init, Sequential.init.
  cbn [bind ctor_monad fresh]. rewrite E1, E2.
  cbn [orb ret ctor_monad]. eauto.
Qed.

Lemma Forall_map_seq {A} (P : A -> Prop) (f : nat -> A) a n :
  (forall k, P (f k)) -> Forall P (map f (seq a n)).
Proof. intros H. apply Forall_forall. intros x Hx. apply in_map_iff in Hx as (k & <- & _). apply H. Qed.

(** ** The argument order at the call of [Transformer] *)

(** C1. [LaMDA.__init__] passes [dim_head] and [heads] to [Transformer] in
    the positions of [heads] and [dim_head]: in every layer of the
    constructed model the attention block has as many heads as the
    configured [dim_head], and the configured [heads] as its per-head width
    (the query scale is [heads ** -0.5], the key/value projection has
    [2 * heads] outputs, the bias table has [dim_head] columns). *)
Theorem C1_heads_dim_head_transposed :
  forall num_tokens dim depth dim_head heads q s m s',
    LaMDA.init num_tokens dim depth dim_head heads q s = Ok (m, s') ->
    length (stack (LaMDA.transformer m)) = Z.to_nat depth /\
    Forall (fun l =>
              Attention.heads (attn_of l) = dim_head /\
              Attention.scale (attn_of l) = Pow heads (-1 # 2) /\
              Linear.out_features (Attention.to_kv (attn_of l)) = heads * 2 /\
              Linear.out_features (Attention.to_q (attn_of l)) = dim_head * heads /\
              Embedding.embedding_dim
                (T5RelativePositionBias.relative_attention_bias
                   (Attention.rel_pos_bias (attn_of l))) = dim_head)
           (stack (LaMDA.transformer m)).
Proof.
  intros * H.
  apply LaMDA_init_inv in H as (s1 & Htr & _).
  apply Transformer_init_inv in Htr as (attn & ffn & s2 & Ha & _ & Hst).
  rewrite Hst. split.
  - now rewrite length_map, length_seq.
  - apply Forall_map_seq. intros k. destruct Ha. cbn. auto.
Qed.

Lemma C1_witness :
  exists m s',
    LaMDA.init 100 32 2 8 4 false 0%nat = Ok (m, s') /\
    length (stack (LaMDA.transformer m)) = 2%nat /\
    Forall (fun l =>
              Attention.heads (attn_of l) = 8 /\
              Attention.scale (attn_of l) = Pow 4 (-1 # 2) /\
              Linear.out_features (Attention.to_kv (attn_of l)) = 4 * 2 /\
              Linear.out_features (Attention.to_q (attn_of l)) = 8 * 4 /\
              Embedding.embedding_dim
                (T5RelativePositionBias.relative_attention_bias
                   (Attention.rel_pos_bias (attn_of l))) = 8)
           (stack (LaMDA.transformer m)).
Proof.
  eexists. eexists. split; [vm_compute; reflexivity|].
  eapply (C1_heads_dim_head_transposed 100 32 2 8 4 false 0%nat).
  vm_compute. reflexivity.
Defined.

(** ** Sharing across the depth of the stack *)

Lemma wrapper_norm_ids dim attn ffn s ks :
  map LayerNorm.id
      (wrapper_norms (map (fun k => layer_at dim attn ffn (s + 7 * k)%nat) ks)) =
  flat_map (fun k => [(s + 7 * k + 1)%nat; (s + 7 * k + 4)%nat]) ks.
Proof.
  induction ks as [|k ks IH]; [reflexivity|].
  cbn [map wrapper_norms flat_map app] in *. now rewrite <- IH.
Qed.

Lemma norm_ids_fresh s n : forall a,
  NoDup (flat_map (fun k => [(s + 7 * k + 1)%nat; (s + 7 * k + 4)%nat]) (seq a n)) /\
  (forall x,
      In x (flat_map (fun k => [(s + 7 * k + 1)%nat; (s + 7 * k + 4)%nat]) (seq a n)) ->
      (s + 7 * a + 1 <= x)%nat).
Proof.
  induction n as [|n IH]; intros a; cbn [seq flat_map app].
  - split; [constructor | intros x []].
  - destruct (IH (S a)) as [Hnd Hlow]. split.
    + constructor.
      * intros [E|Hin]; [lia|]. apply Hlow in Hin. lia.
      * constructor; [|exact Hnd]. intros Hin. apply Hlow in Hin. lia.
    + intros x [E|[E|Hin]]; [lia|lia|]. apply Hlow in Hin. lia.
Qed.

(** C6. The stack holds one attention block and one feedforward block:
    any two layers carry the same attention object and the same feedforward
    object (same identity, same parameters), with or without quantization.
    The normalisation objects of the pre-normalisation wrappers are pairwise
    distinct: each wrapper owns its own. *)
Theorem C6_blocks_shared_norms_own :
  forall dim depth heads dim_head p q s tr s',
    Transformer.init dim depth heads dim_head p q s = Ok (tr, s') ->
    length (stack tr) = Z.to_nat depth /\
    (forall i j li lj,
        nth_error (stack tr) i = Some li ->
        nth_error (stack tr) j = Some lj ->
        attn_of li = attn_of lj /\ ffn_of li = ffn_of lj) /\
    NoDup (map LayerNorm.id (wrapper_norms (stack tr))).
Proof.
  intros * H.
  apply Transformer_init_inv in H as (attn & ffn & s1 & _ & _ & Hst).
  rewrite Hst. split; [|split].
  - now rewrite length_map, length_seq.
  - intros i j li lj Hi Hj.
    apply nth_error_In, in_map_iff in Hi as (ki & <- & _).
    apply nth_error_In, in_map_iff in Hj as (kj & <- & _).
    split; reflexivity.
  - rewrite wrapper_norm_ids. apply norm_ids_fresh.
Qed.

Lemma C6_witness :
  exists tr s',
    Transformer.init 32 2 4 8 0 true 0%nat = Ok (tr, s') /\
    length (stack tr) = 2%nat /\
    (forall i j li lj,
        nth_error (stack tr) i = Some li ->
        nth_error (stack tr) j = Some lj ->
        attn_of li = attn_of lj /\ ffn_of li = ffn_of lj) /\
    NoDup (map LayerNorm.id (wrapper_norms (stack tr))).
Proof.
  eexists. eexists. split; [vm_compute; reflexivity|].
  eapply (C6_blocks_shared_norms_own 32 2 4 8 0 true 0%nat).
  vm_compute. reflexivity.
Defined.

(** ** The projections of the attention block *)

Lemma chunk2_even lead d :
  0 < d ->
  chunk2 (lead ++ [d * 2]) = Ok (lead ++ [d], lead ++ [d]).
Proof.
  intros Hd. unfold chunk2, last_dim, set_last_dim.
  rewrite rev_unit, removelast_last. cbn.
  assert (E1 : (d * 2 =? 0) = false) by lia. rewrite E1.
  assert (E2 : (d * 2 + 1) / 2 = d).
  { symmetry. apply Z.div_unique with 1; lia. }
  rewrite E2.
  assert (E3 : (d * 2 - d =? 0) = false) by lia. rewrite E3.
  replace (d * 2 - d) with d by lia. reflexivity.
Qed.

Lemma Linear_forward_shape l lead d :
  Linear.in_features l = d ->
  Linear.forward l (lead ++ [d]) = Ok (lead ++ [Linear.out_features l]).
Proof.
  intros <-. unfold Linear.forward, last_dim, set_last_dim.
  rewrite rev_unit, removelast_last. cbn. now rewrite Z.eqb_refl.
Qed.

Lemma LayerNorm_forward_shape l lead d :
  LayerNorm.normalized_shape l = d ->
  LayerNorm.forward l (lead ++ [d]) = Ok (lead ++ [d]).
Proof.
  intros <-. unfold LayerNorm.forward, last_dim.
  rewrite rev_unit. cbn. now rewrite Z.eqb_refl.
Qed.

Lemma rearrange_split_heads_ok b n h d :
  0 < h -> rearrange_split_heads [b; n; h * d] h = Ok [b; h; n; d].
Proof.
  intros Hh. unfold rearrange_split_heads.
  assert (E0 : (h =? 0) = false) by lia. rewrite E0.
  assert (E1 : (h <? 0) = false) by lia. rewrite E1.
  rewrite Z.mul_comm, Z.mod_mul, Z.div_mul by lia. reflexivity.
Qed.

Lemma Attention_project_shape a dim heads dim_head b n :
  Attention_sizes a dim heads dim_head ->
  0 < heads -> 0 < dim_head ->
  Attention.project a [b; n; dim] =
  Ok (mul_scalar [b; heads; n; dim_head] (Pow dim_head (-1 # 2)),
      [b; n; dim_head], [b; n; dim_head]).
Proof.
  intros [] Hh Hd. unfold Attention.project.
  change [b; n; dim] with ([b; n] ++ [dim]).
  rewrite !Linear_forward_shape by assumption.
  rewrite as_q_out0, as_kv_out0, as_heads0, as_scale0. cbn [bind result_monad].
  rewrite chunk2_even by assumption. cbn [app].
  now rewrite rearrange_split_heads_ok.
Qed.

(** Whatever the block and the input, the queries that leave [project]
    have been multiplied by the [scale] attribute of the block. *)
Lemma Attention_project_factor (a : Attention.t) x q k v :
  Attention.project a x = Ok (q, k, v) -> factor q = Attention.scale a.
Proof.
  unfold Attention.project. intros H.
  destruct (Linear.forward (Attention.to_q a) x) as [q0|]; [|discriminate].
  destruct (Linear.forward (Attention.to_kv a) x) as [kv|]; [|discriminate].
  cbn [bind result_monad] in H.
  destruct (chunk2 kv) as [[k0 v0]|]; [|discriminate].
  cbn [bind result_monad] in H.
  destruct (rearrange_split_heads q0 (Attention.heads a)) as [q1|]; [|discriminate].
  cbn [bind result_monad] in H. inversion H. reflexivity.
Qed.

(** C7. The query projection has no bias and [heads * dim_head] outputs;
    in [forward] its output is split into heads and multiplied by
    [self.scale], which is [dim_head ** -0.5]: the queries that enter the
    similarity have shape [(batch, heads, seq_len, dim_head)] and carry
    that factor.  Keys and values come from one projection without bias
    with [2 * dim_head] outputs, cut into a key tensor and a value tensor
    of shape [(batch, seq_len, dim_head)] that carry no head axis: all
    query heads read the same keys and values. *)
Theorem C7_queries_per_head_keys_values_shared :
  forall dim heads dim_head p s a s',
    Attention.init dim heads dim_head p s = Ok (a, s') ->
    Attention.heads a = heads /\
    Linear.in_features (Attention.to_q a) = dim /\
    Linear.out_features (Attention.to_q a) = heads * dim_head /\
    Linear.bias (Attention.to_q a) = false /\
    Attention.scale a = Pow dim_head (-1 # 2) /\
    Linear.in_features (Attention.to_kv a) = dim /\
    Linear.out_features (Attention.to_kv a) = 2 * dim_head /\
    Linear.bias (Attention.to_kv a) = false /\
    (forall x q k v,
        Attention.project a x = Ok (q, k, v) ->
        factor q = Pow dim_head (-1 # 2)) /\
    (forall b n,
        0 < heads -> 0 < dim_head ->
        Attention.project a [b; n; dim] =
        Ok (mul_scalar [b; heads; n; dim_head] (Pow dim_head (-1 # 2)),
            [b; n; dim_head], [b; n; dim_head])).
Proof.
  intros * H. apply Attention_init_inv in H as (Ha & _ & _).
  pose proof Ha as [].
  repeat (split; [assumption || lia|]).
  split.
  - intros x q k v Hp. apply Attention_project_factor in Hp. congruence.
  - intros b n Hh Hd. now apply Attention_project_shape.
Qed.

Lemma C7_witness :
  exists a s',
    Attention.init 32 4 8 0 0%nat = Ok (a, s') /\
    Attention.heads a = 4 /\
    Linear.in_features (Attention.to_q a) = 32 /\
    Linear.out_features (Attention.to_q a) = 4 * 8 /\
    Linear.bias (Attention.to_q a) = false /\
    Attention.scale a = Pow 8 (-1 # 2) /\
    Linear.in_features (Attention.to_kv a) = 32 /\
    Linear.out_features (Attention.to_kv a) = 2 * 8 /\
    Linear.bias (Attention.to_kv a) = false /\
    (forall x q k v,
        Attention.project a x = Ok (q, k, v) -> factor q = Pow 8 (-1 # 2)) /\
    (forall b n,
        0 < 4 -> 0 < 8 ->
        Attention.project a [b; n; 32] =
        Ok (mul_scalar [b; 4; n; 8] (Pow 8 (-1 # 2)), [b; n; 8], [b; n; 8])).
Proof.
  eexists. eexists. split; [vm_compute; reflexivity|].
  eapply (C7_queries_per_head_keys_values_shared 32 4 8 0 0%nat).
  vm_compute. reflexivity.
Defined.

(** ** The feedforward block *)

Lemma FeedForward_forward_shape f dim mult lead :
  FeedForward_sizes f dim mult ->
  forward f (lead ++ [dim]) = Ok (lead ++ [dim]).
Proof.
  intros [].
  unfold forward, FeedForward_Forward, FeedForward.forward.
  unfold forward, Sequential_Forward, Sequential.forward.
  unfold forward at 1, pair_Forward. unfold forward at 1, pair_Forward.
  unfold forward at 1, pair_Forward.
  unfold forward, Linear_Forward, SquaredRelu_Forward, Dropout_Forward.
  fold (ff_first f) (ff_second f) (ff_activation f) (ff_dropout f).
  rewrite (Linear_forward_shape _ lead fs_first_in0).
  cbn [bind result_monad SquaredRelu.forward Dropout.forward].
  rewrite fs_first_out0.
  rewrite (Linear_forward_shape _ lead fs_second_in0).
  now rewrite fs_second_out0.
Qed.

Lemma SquaredRelu_forward_values_nth x k v :
  nth_error x k = Some v ->
  nth_error (SquaredRelu.forward_values x) k =
  Some (Qpower (SquaredRelu.relu v) 2).
Proof.
  intros H. unfold SquaredRelu.forward_values.
  now rewrite nth_error_map, H.
Qed.

(** C8, as the source has it.  The first affine map has
    [2 * inner_dim] outputs with [inner_dim = dim * mult] (the stack uses
    the default [mult = 4]); the squared ReLU is applied to every one of
    these outputs, entry by entry, with no split into halves and no gate;
    dropout follows, and the second affine map reads all [2 * inner_dim]
    features and projects back to [dim]. *)
Theorem C8_squared_relu_on_full_width :
  forall dim mult p s f s',
    FeedForward.init dim mult p s = Ok (f, s') ->
    let inner_dim := dim * mult in
    FeedForward.default_mult = 4 /\
    Linear.in_features (ff_first f) = dim /\
    Linear.out_features (ff_first f) = 2 * inner_dim /\
    (forall x : list Q,
        length (SquaredRelu.forward_values x) = length x /\
        forall k v, nth_error x k = Some v ->
                    nth_error (SquaredRelu.forward_values x) k =
                    Some (Qpower (SquaredRelu.relu v) 2)) /\
    Dropout.p (ff_dropout f) = p /\
    Linear.in_features (ff_second f) = 2 * inner_dim /\
    Linear.out_features (ff_second f) = dim /\
    (forall lead, forward f (lead ++ [dim]) = Ok (lead ++ [dim])).
Proof.
  intros * H inner_dim. subst inner_dim.
  apply FeedForward_init_inv in H as (Hf & _ & _ & Hp).
  pose proof Hf as [].
  split; [reflexivity|].
  split; [assumption|]. split; [lia|].
  split.
  { intros x. split.
    - unfold SquaredRelu.forward_values. apply length_map.
    - intros k v. apply SquaredRelu_forward_values_nth. }
  split; [assumption|]. split; [lia|]. split; [assumption|].
  intros lead. eapply FeedForward_forward_shape; eassumption.
Qed.

Lemma C8_witness :
  exists f s',
    FeedForward.init 1 4 0 0%nat = Ok (f, s') /\
    let inner_dim := 1 * 4 in
    FeedForward.default_mult = 4 /\
    Linear.in_features (ff_first f) = 1 /\
    Linear.out_features (ff_first f) = 2 * inner_dim /\
    (forall x : list Q,
        length (SquaredRelu.forward_values x) = length x /\
        forall k v, nth_error x k = Some v ->
                    nth_error (SquaredRelu.forward_values x) k =
                    Some (Qpower (SquaredRelu.relu v) 2)) /\
    Dropout.p (ff_dropout f) = 0%Q /\
    Linear.in_features (ff_second f) = 2 * inner_dim /\
    Linear.out_features (ff_second f) = 1 /\
    (forall lead, forward f (lead ++ [1]) = Ok (lead ++ [1])).
Proof.
  eexists. eexists. split; [vm_compute; reflexivity|].
  eapply (C8_squared_relu_on_full_width 1 4 0 0%nat).
  vm_compute. reflexivity.
Defined.

(** C8, as stated, fails: with [dim = 1] and the default [mult = 4] the
    activation receives [8] features; two inputs that agree on the first
    half ([4] features) and differ on the second half are sent to different
    outputs, so the second half is used, and the second affine map has
    [8] inputs, not [4]. *)
Lemma C8_counterexample :
  exists f s',
    FeedForward.init 1 FeedForward.default_mult 0 0%nat = Ok (f, s') /\
    Linear.out_features (ff_first f) = 8 /\
    Linear.in_features (ff_second f) = 8 /\
    SquaredRelu.forward_values [1; 1; 1; 1; 2; 3; -1; 0]%Q =
      [1; 1; 1; 1; 4; 9; 0; 0]%Q /\
    ~ (forall x y : list Q,
          length x = 8%nat -> length y = 8%nat ->
          firstn 4 x = firstn 4 y ->
          SquaredRelu.forward_values x = SquaredRelu.forward_values y).
Proof.
  eexists. eexists. split; [vm_compute; reflexivity|].
  cbn. repeat split.
  intros H.
  specialize (H [1; 1; 1; 1; 1; 1; 1; 1]%Q [1; 1; 1; 1; 2; 3; -1; 0]%Q
                eq_refl eq_refl eq_refl).
  discriminate H.
Qed.

(** ** Construction and hyperparameters *)

(** C10, as the source has it.  The constructors check nothing about
    their hyperparameters.  The bias module is constructed exactly when the
    runtime can allocate its table ([num_buckets] and [heads] not
    negative), whatever the parity of [num_buckets] and whatever
    [max_distance], and it stores [num_buckets] and [max_distance] as they
    were given; the model is constructed for every [depth], positive or
    not, when its sizes can be allocated. *)
Theorem C10_construction_does_not_validate :
  forall scale num_buckets max_distance heads s,
    is_ok (T5RelativePositionBias.init scale num_buckets max_distance heads s)
    = (0 <=? num_buckets) && (0 <=? heads) /\
    (forall m s',
        T5RelativePositionBias.init scale num_buckets max_distance heads s = Ok (m, s') ->
        T5RelativePositionBias.num_buckets m = num_buckets /\
        T5RelativePositionBias.max_distance m = max_distance) /\
    (forall num_tokens dim depth dim_head model_heads q,
        0 <= num_tokens -> 0 <= dim -> 0 <= dim_head -> 0 < model_heads ->
        is_ok (LaMDA.init num_tokens dim depth dim_head model_heads q s) = true).
Proof.
  intros. split; [|split].
  - unfold T5RelativePositionBias.init, Embedding.init, fresh, raise_ctor.
    cbn. destruct (num_buckets <? 0) eqn:E1; destruct (heads <? 0) eqn:E2; cbn; lia.
  - intros m s' H.
    unfold T5RelativePositionBias.init, Embedding.init, fresh, raise_ctor in H.
    ctor_inv H. inversion H; subst. cbn. auto.
  - intros num_tokens dim depth dim_head model_heads q Hn Hd Hdh Hh.
    destruct (@LaMDA_init_ok num_tokens dim depth dim_head model_heads q s)
      as (m & s' & Hm); try assumption.
    now rewrite Hm.
Qed.

(** C10, as stated, fails: a bias module with an odd [num_buckets] and
    with [max_distance <= num_buckets / 2] is constructed without error,
    and so is a model of depth zero. *)
Lemma C10_counterexample :
  Z.odd 33 = true /\ 5 <= 33 / 2 /\
  is_ok (T5RelativePositionBias.init (Pow 8 (1 # 2)) 33 5 8 0%nat) = true /\
  is_ok (LaMDA.init 100 32 0 8 4 false 0%nat) = true.
Proof. vm_compute. repeat split; discriminate. Qed.

(** ** Quantization of the output projection *)

Lemma LaMDA_convert_all_quantized (m : LaMDA.t) :
  Forall (fun l => Linear.weights l = Linear.DynamicQuantized) (linears (convert m)).
Proof.
  destruct m as [id nt dim emb [tid [lid ls]] [sid [norm proj]]]. cbn.
  apply Forall_app. split; [|repeat constructor].
  induction ls as [|l ls IH]; cbn; [constructor|].
  repeat (constructor; [reflexivity|]). exact IH.
Qed.

(** Whatever the configuration, [quantized_logits] leaves no affine layer
    of the returned model in full precision. *)
Lemma lamda_model_quantized_logits_all CFG qt s m s' :
  lamda_model CFG true qt s = Ok (m, s') ->
  Forall (fun l => Linear.weights l = Linear.DynamicQuantized) (linears m).
Proof.
  intros H. unfold lamda_model in H. cbn [bind ctor_monad] in H.
  step_bind H. unfold quantize_dynamic in H. cbn [bind ret ctor_monad] in H.
  match type of H with
  | Ok (?c, _) = _ => assert (Hm : m = c) by congruence
  end.
  rewrite Hm. apply LaMDA_convert_all_quantized.
Qed.

(** C2 at the configuration of the end-to-end scenario.  With
    [quantized_logits] set and [quantized_transformer] unset, every affine
    layer inside the transformer stack (the three projections of the
    attention block and the two of the feedforward block, in both layers)
    is quantized, whereas the model built without [quantized_logits] has
    them all in full precision. *)
Theorem C2_quantized_logits_converts_the_stack :
  exists m s' m0 s0,
    lamda_model demo_config true false 0%nat = Ok (m, s') /\
    lamda_model demo_config false false 0%nat = Ok (m0, s0) /\
    map Linear.weights (linears (LaMDA.transformer m)) =
      repeat Linear.DynamicQuantized 10 /\
    map Linear.weights (linears (LaMDA.transformer m0)) =
      repeat Linear.Float 10 /\
    map Linear.weights (linears (LaMDA.to_logits m)) = [Linear.DynamicQuantized].
Proof.
  do 4 eexists. split; [vm_compute; reflexivity|].
  split; [vm_compute; reflexivity|].
  vm_compute. repeat split.
Qed.


(** ** The bucket function

    Where a boundary between two logarithmic buckets falls depends on the
    rounding of [torch.log] and of the float32 division and multiplication
    around it, so the bucket of a distance past the exact regime is
    located only up to its range: at least [num_buckets // 2] and at most
    [num_buckets - 1]. *)

Lemma ln_monotone x y : (0 < x)%R -> (x <= y)%R -> (ln x <= ln y)%R.
Proof.
  intros Hx [Hlt|<-]; [|apply Rle_refl].
  left. now apply ln_increasing.
Qed.

Lemma Int_part_nonneg x : (0 <= x)%R -> 0 <= Int_part x.
Proof.
  intros Hx. destruct (base_Int_part x) as [_ H].
  assert (H' : (IZR (-1) < IZR (Int_part x))%R) by lra.
  apply lt_IZR in H'. lia.
Qed.

Lemma Rtrunc_nonneg x : (0 <= x)%R -> Rtrunc x = Int_part x.
Proof.
  intros Hx. unfold Rtrunc. destruct (Rlt_dec x 0); [lra|reflexivity].
Qed.

Lemma int64_wrap_id z : - 2 ^ 63 <= z < 2 ^ 63 -> int64_wrap z = z.
Proof. intros Hz. unfold int64_wrap. rewrite Z.mod_small; lia. Qed.

Lemma clamped_distance_nonneg r : 0 <= clamped_distance r.
Proof. unfold clamped_distance. lia. Qed.

(** In the exact regime the selected entry is the clamped distance,
    whatever the float computation of the other branch gives. *)
Lemma bucket_entry_small num_buckets max_exact log_ratio r :
  clamped_distance r < max_exact ->
  T5RelativePositionBias.bucket_entry num_buckets max_exact log_ratio r =
  clamped_distance r.
Proof.
  intros H. unfold T5RelativePositionBias.bucket_entry. cbv zeta.
  change (Z.max (int64_wrap (- r)) 0) with (clamped_distance r).
  assert (E : (clamped_distance r <? max_exact) = true) by lia.
  now rewrite E.
Qed.

(** The clamp by [torch.min] bounds the other branch. *)
Lemma bucket_entry_le num_buckets max_exact log_ratio r :
  max_exact <= num_buckets - 1 ->
  T5RelativePositionBias.bucket_entry num_buckets max_exact log_ratio r <=
  num_buckets - 1.
Proof.
  intros H. unfold T5RelativePositionBias.bucket_entry. cbv zeta.
  destruct (Z.max (int64_wrap (- r)) 0 <? max_exact) eqn:E; lia.
Qed.

(** With [num_buckets >= 2] and a positive [max_distance] neither Python
    computation raises. *)
Lemma relative_position_bucket_returns num_buckets max_distance
    (relative_position : itensor) :
  2 <= num_buckets -> 1 <= max_distance ->
  T5RelativePositionBias._relative_position_bucket relative_position
    num_buckets max_distance =
  Ok {| ishape := ishape relative_position;
        idata := map (T5RelativePositionBias.bucket_entry num_buckets
                        (num_buckets / 2)
                        (ln (IZR max_distance / IZR (num_buckets / 2))))
                     (idata relative_position) |}.
Proof.
  intros HN HD.
  unfold T5RelativePositionBias._relative_position_bucket, py_truediv, math_log.
  assert (Hpos : 1 <= num_buckets / 2) by (Z.div_mod_to_equations; lia).
  assert (E : (num_buckets / 2 =? 0) = false) by lia. rewrite E.
  cbn [bind result_monad].
  destruct (Rlt_dec 0 (IZR max_distance / IZR (num_buckets / 2))) as [_|Hn];
    [reflexivity|].
  exfalso. apply Hn. apply Rdiv_lt_0_compat; apply IZR_lt; lia.
Qed.

Section Buckets.
Variables num_buckets max_distance : Z.
Hypothesis buckets_ge_2 : 2 <= num_buckets.
Hypothesis distance_gt_half : num_buckets / 2 < max_distance.

Local Abbreviation max_exact := (num_buckets / 2).
Local Abbreviation log_ratio := (ln (IZR max_distance / IZR max_exact)).

Lemma max_exact_pos : 1 <= max_exact.
Proof. Z.div_mod_to_equations. lia. Qed.

Lemma max_exact_le : max_exact <= num_buckets - 1.
Proof. Z.div_mod_to_equations. lia. Qed.

Lemma max_exact_R_pos : (0 < IZR max_exact)%R.
Proof. apply IZR_lt. pose proof max_exact_pos. lia. Qed.

Lemma log_ratio_pos : (0 < log_ratio)%R.
Proof.
  rewrite <- ln_1. apply ln_increasing; [lra|].
  pose proof max_exact_R_pos.
  apply Rmult_lt_reg_r with (IZR max_exact); [assumption|].
  unfold Rdiv. rewrite Rmult_assoc, Rinv_l, Rmult_1_r, Rmult_1_l by lra.
  now apply IZR_lt.
Qed.

Lemma ratio_ge_1 n : max_exact <= n -> (1 <= IZR n / IZR max_exact)%R.
Proof.
  intros Hn. pose proof max_exact_R_pos.
  apply Rmult_le_reg_r with (IZR max_exact); [assumption|].
  unfold Rdiv. rewrite Rmult_assoc, Rinv_l, Rmult_1_r, Rmult_1_l by lra.
  now apply IZR_le.
Qed.

Lemma large_index_nonneg n :
  max_exact <= n -> (0 <= large_index num_buckets max_distance n)%R.
Proof.
  intros Hn. unfold large_index.
  pose proof log_ratio_pos. pose proof (ratio_ge_1 Hn).
  assert (0 <= ln (IZR n / IZR max_exact))%R.
  { rewrite <- ln_1. apply ln_monotone; lra. }
  assert (0 <= IZR (num_buckets - max_exact))%R.
  { apply IZR_le. pose proof max_exact_le. lia. }
  apply Rmult_le_pos; [|assumption].
  apply Rmult_le_pos; [assumption|]. left. now apply Rinv_0_lt_compat.
Qed.

(** Past the exact regime every float of the computation is finite and
    the number handed to [.long()] is not negative: the entry is one of
    the logarithmic buckets. *)
Lemma bucket_entry_large r :
  max_exact <= clamped_distance r ->
  max_exact <=
  T5RelativePositionBias.bucket_entry num_buckets max_exact log_ratio r <=
  num_buckets - 1.
Proof.
  intros E. unfold T5RelativePositionBias.bucket_entry. cbv zeta.
  change (Z.max (int64_wrap (- r)) 0) with (clamped_distance r).
  assert (Hs : (clamped_distance r <? max_exact) = false) by lia. rewrite Hs.
  pose proof max_exact_R_pos. pose proof log_ratio_pos. pose proof (ratio_ge_1 E).
  unfold f32_div at 2.
  destruct (Req_dec_T (IZR max_exact) 0); [lra|].
  unfold f32_log.
  destruct (Rlt_dec 0 (IZR (clamped_distance r) / IZR max_exact)); [|lra].
  unfold f32_div. destruct (Req_dec_T log_ratio 0); [lra|].
  unfold f32_mul, f32_long.
  fold (large_index num_buckets max_distance (clamped_distance r)).
  rewrite Rtrunc_nonneg by now apply large_index_nonneg.
  pose proof (Int_part_nonneg (large_index_nonneg E)). pose proof max_exact_le.
  lia.
Qed.

(** Every entry is a row of a table with [num_buckets] rows. *)
Lemma bucket_entry_range r :
  0 <= T5RelativePositionBias.bucket_entry num_buckets max_exact log_ratio r
    < num_buckets.
Proof.
  pose proof max_exact_le. pose proof max_exact_pos.
  pose proof (clamped_distance_nonneg r).
  destruct (Z_lt_le_dec (clamped_distance r) max_exact) as [Hs|Hl].
  - rewrite bucket_entry_small by assumption. lia.
  - pose proof (bucket_entry_large r Hl). lia.
Qed.

Lemma relative_position_bucket_range (relative_position : itensor) :
  exists buckets,
    T5RelativePositionBias._relative_position_bucket relative_position
      num_buckets max_distance = Ok buckets /\
    ishape buckets = ishape relative_position /\
    Forall (fun b => 0 <= b < num_buckets) (idata buckets).
Proof.
  pose proof max_exact_pos.
  eexists. split; [apply relative_position_bucket_returns; lia|].
  cbn [ishape idata]. split; [reflexivity|].
  apply Forall_forall. intros b Hb. apply in_map_iff in Hb as (r & <- & _).
  apply bucket_entry_range.
Qed.
End Buckets.

(** ** Shapes through the forward pass *)

Lemma Embedding_forward_shape e (x : itensor) :
  Forall (fun v => 0 <= v < Embedding.num_embeddings e) (idata x) ->
  Embedding.forward e x = Ok (ishape x ++ [Embedding.embedding_dim e]).
Proof.
  intros H. unfold Embedding.forward.
  assert (E : forallb (fun v => (0 <=? v) && (v <? Embedding.num_embeddings e))
                      (idata x) = true).
  { apply forallb_forall. intros v Hv.
    rewrite Forall_forall in H. specialize (H v Hv). lia. }
  now rewrite E.
Qed.

Lemma T5RelativePositionBias_forward_shape t heads b i j :
  T5RelativePositionBias.num_buckets t = 32 ->
  T5RelativePositionBias.max_distance t = 128 ->
  Embedding.num_embeddings (T5RelativePositionBias.relative_attention_bias t) = 32 ->
  Embedding.embedding_dim (T5RelativePositionBias.relative_attention_bias t) = heads ->
  T5RelativePositionBias.forward t [b; heads; i; j] = Ok [b; heads; i; j].
Proof.
  intros Hn Hd Hrows Hcols. unfold T5RelativePositionBias.forward.
  cbn [last_two rev app bind result_monad].
  rewrite Hn, Hd.
  assert (H1 : 2 <= 32) by lia.
  assert (H2 : 32 / 2 < 128) by reflexivity.
  destruct (relative_position_bucket_range H1 H2 (T5RelativePositionBias.rel_pos i j))
    as (buckets & -> & Hshape & Hrange).
  cbn [bind result_monad].
  rewrite Embedding_forward_shape by now rewrite Hrows.
  rewrite Hshape.
  change (ishape (T5RelativePositionBias.rel_pos i j)) with [i; j].
  cbn [app bind result_monad rearrange_bias mul_scalar scaled_shape]. rewrite Hcols.
  unfold broadcast_shapes. cbn [rev app broadcast_rev bind result_monad].
  rewrite !broadcast_dim_same, broadcast_dim_one_r. reflexivity.
Qed.

Lemma Attention_forward_shape a dim heads dim_head b n :
  Attention_sizes a dim heads dim_head ->
  0 < heads -> 0 < dim_head ->
  Attention.forward a [b; n; dim] = Ok [b; n; dim].
Proof.
  intros Ha Hh Hd. unfold Attention.forward.
  rewrite (Attention_project_shape b n Ha Hh Hd).
  destruct Ha.
  cbn [bind result_monad einsum_qk mul_scalar scaled_shape]. rewrite !broadcast_dim_same.
  cbn [bind result_monad last_two rev app].
  rewrite (T5RelativePositionBias_forward_shape _ b n n
             as_buckets0 as_distance0 as_table_rows0 as_table_cols0).
  cbn [bind result_monad]. unfold masked_fill, broadcast_shapes.
  cbn [rev app broadcast_rev bind result_monad].
  rewrite !broadcast_dim_same. cbn [bind result_monad rev app].
  rewrite shape_eqb_refl.
  cbn [softmax last_dim rev app bind result_monad Dropout.forward einsum_av].
  rewrite !broadcast_dim_same.
  cbn [bind result_monad rearrange_merge_heads].
  change [b; n; heads * dim_head] with ([b; n] ++ [heads * dim_head]).
  rewrite Linear_forward_shape by assumption. now rewrite as_out_out0.
Qed.

Lemma forward_layer_shape l dim heads dim_head b n :
  Layer_sizes l dim heads dim_head ->
  0 < heads -> 0 < dim_head ->
  Transformer.forward_layer l [b; n; dim] = Ok [b; n; dim].
Proof.
  intros [Hn1 Hn2 Ha Hf] Hh Hd.
  unfold Transformer.forward_layer.
  destruct l as [lid [ra rf]].
  unfold attn_of, ffn_of, attn_wrapper, ff_wrapper in *. cbn [ModuleList.modules fst snd] in *.
  unfold forward, Residual_Forward, Residual.forward.
  unfold forward, PreNorm_Forward, PreNorm.forward.
  change [b; n; dim] with ([b; n] ++ [dim]).
  rewrite (LayerNorm_forward_shape _ [b; n] Hn1). cbn [bind result_monad].
  unfold forward at 1, Attention_Forward. cbn [app].
  rewrite (Attention_forward_shape b n Ha Hh Hd). cbn [bind result_monad].
  rewrite broadcast_shapes_same. cbn [bind result_monad].
  change [b; n; dim] with ([b; n] ++ [dim]).
  rewrite (LayerNorm_forward_shape _ [b; n] Hn2). cbn [bind result_monad].
  rewrite (FeedForward_forward_shape [b; n] Hf). cbn [bind result_monad].
  apply broadcast_shapes_same.
Qed.

Lemma forward_layers_shape ls dim heads dim_head b n :
  Forall (fun l => Layer_sizes l dim heads dim_head) ls ->
  0 < heads -> 0 < dim_head ->
  Transformer.forward_layers ls [b; n; dim] = Ok [b; n; dim].
Proof.
  intros Hls Hh Hd. induction Hls as [|l ls Hl _ IH]; [reflexivity|].
  cbn [Transformer.forward_layers].
  rewrite (forward_layer_shape b n Hl Hh Hd). exact IH.
Qed.

Lemma LaMDA_forward_shape m num_tokens dim heads dim_head (x : itensor) b n :
  LaMDA_sizes m num_tokens dim heads dim_head ->
  0 < heads -> 0 < dim_head ->
  ishape x = [b; n] ->
  Forall (fun v => 0 <= v < num_tokens) (idata x) ->
  LaMDA.forward m x = Ok [b; n; num_tokens].
Proof.
  intros [] Hh Hd Hshape Hrange. unfold LaMDA.forward.
  rewrite Embedding_forward_shape by now rewrite ms_rows0.
  rewrite Hshape, ms_cols0. cbn [app bind result_monad].
  unfold forward at 1, Transformer_Forward, Transformer.forward.
  fold (stack (LaMDA.transformer m)).
  rewrite (forward_layers_shape b n ms_layers0 Hh Hd). cbn [bind result_monad].
  unfold forward, Sequential_Forward, Sequential.forward.
  unfold forward, pair_Forward.
  unfold forward, LayerNorm_Forward, Linear_Forward.
  fold (logits_norm m) (logits_proj m).
  change [b; n; dim] with ([b; n] ++ [dim]).
  rewrite (LayerNorm_forward_shape _ [b; n] ms_norm0). cbn [bind result_monad].
  rewrite (Linear_forward_shape _ [b; n] ms_proj_in0).
  now rewrite ms_proj_out0.
Qed.

Lemma layer_at_sizes dim heads dim_head attn ffn s :
  Attention_sizes attn dim heads dim_head ->
  FeedForward_sizes ffn dim FeedForward.default_mult ->
  Layer_sizes (layer_at dim attn ffn s) dim heads dim_head.
Proof. intros Ha Hf. constructor; auto. Qed.

Lemma LaMDA_init_sizes num_tokens dim depth dim_head heads q s m s' :
  LaMDA.init num_tokens dim depth dim_head heads q s = Ok (m, s') ->
  LaMDA_sizes m num_tokens dim dim_head heads.
Proof.
  intros H. apply LaMDA_init_inv in H as (s1 & Htr & H1 & H2 & H3 & H4 & H5 & _).
  apply Transformer_init_inv in Htr as (attn & ffn & s2 & Ha & Hf & Hst).
  constructor; try assumption.
  rewrite Hst. apply Forall_map_seq. intros k. now apply layer_at_sizes.
Qed.

Lemma LaMDA_quantized_sizes f m num_tokens dim heads dim_head :
  LaMDA_sizes m num_tokens dim heads dim_head ->
  LaMDA_sizes (convert (relabel f m)) num_tokens dim heads dim_head.
Proof.
  intros []. constructor; try assumption.
  unfold stack in *. cbn.
  rewrite map_map. apply Forall_map.
  eapply Forall_impl; [|exact ms_layers0].
  intros l [Hn1 Hn2 [] []]. repeat constructor; assumption.
Qed.

(** C9. For positive [num_tokens], [dim], [depth], [dim_head] and [heads],
    with or without either quantization, the model is constructed, and its
    forward pass sends a token tensor of shape [(batch, seq_len)] with
    entries in [[0, num_tokens)] to a tensor of shape
    [(batch, seq_len, num_tokens)]. *)
Theorem C9_forward_shape :
  forall CFG quantized_logits quantized_transformer s (x : itensor) batch seq_len,
    0 < cfg_num_tokens CFG -> 0 < cfg_dim CFG -> 0 < cfg_depth CFG ->
    0 < cfg_dim_head CFG -> 0 < cfg_heads CFG ->
    ishape x = [batch; seq_len] ->
    Forall (fun v => 0 <= v < cfg_num_tokens CFG) (idata x) ->
    exists m s',
      lamda_model CFG quantized_logits quantized_transformer s = Ok (m, s') /\
      length (stack (LaMDA.transformer m)) = Z.to_nat (cfg_depth CFG) /\
      LaMDA.forward m x = Ok [batch; seq_len; cfg_num_tokens CFG].
Proof.
  intros CFG ql qt s x b n Hnt Hdim Hdepth Hdh Hh Hshape Hrange.
  destruct (@LaMDA_init_ok (cfg_num_tokens CFG) (cfg_dim CFG) (cfg_depth CFG)
              (cfg_dim_head CFG) (cfg_heads CFG) qt s)
    as (m & s1 & Hm); try lia.
  pose proof (LaMDA_init_sizes _ _ _ _ _ _ _ Hm) as Hsizes.
  pose proof (C := LaMDA_init_inv _ _ _ _ _ _ _ Hm).
  destruct C as (s2 & Htr & _).
  apply Transformer_init_inv in Htr as (attn & ffn & s3 & _ & _ & Hst).
  unfold lamda_model. cbn [bind ctor_monad]. rewrite Hm.
  destruct ql.
  - unfold quantize_dynamic. cbn [bind ret ctor_monad].
    eexists _, _. split; [reflexivity|]. split.
    + unfold stack in *. cbn. rewrite Hst.
      now rewrite !length_map, length_seq.
    + apply (@LaMDA_forward_shape _ (cfg_num_tokens CFG) (cfg_dim CFG)
                (cfg_dim_head CFG) (cfg_heads CFG) x b n); try assumption.
      now apply LaMDA_quantized_sizes.
  - cbn [ret ctor_monad]. eexists _, _. split; [reflexivity|]. split.
    + rewrite Hst. now rewrite length_map, length_seq.
    + apply (@LaMDA_forward_shape _ (cfg_num_tokens CFG) (cfg_dim CFG)
                (cfg_dim_head CFG) (cfg_heads CFG) x b n); assumption.
Qed.

Lemma C9_witness :
  exists m s',
    lamda_model demo_config true false 0%nat = Ok (m, s') /\
    length (stack (LaMDA.transformer m)) = Z.to_nat 2 /\
    LaMDA.forward m {| ishape := [1; 4]; idata := [0; 17; 99; 3] |} = Ok [1; 4; 100].
Proof.
  apply (@C9_forward_shape demo_config true false 0%nat
           {| ishape := [1; 4]; idata := [0; 17; 99; 3] |} 1 4);
    cbn; try lia; try reflexivity.
  repeat constructor; lia.
Defined.

(** ** The causal mask *)

(** In self-attention the similarity matrix is square, and the mask covers
    exactly the entries whose key position follows the query position; the
    value written there is the finite [-torch.finfo(dtype).max]. *)
Lemma causal_mask_square n query_pos key_pos :
  Attention.causal_mask n n query_pos key_pos = true <-> query_pos < key_pos.
Proof. unfold Attention.causal_mask. lia. Qed.

Lemma mask_value_finite : Attention.mask_value <> Attention.neg_infinity.
Proof. discriminate. Qed.

Lemma masked_fill_values_square {A} n (sim : Z -> Z -> A) query_pos key_pos :
  Attention.masked_fill_values n n sim query_pos key_pos =
  if query_pos <? key_pos then Attention.Filled A Attention.neg_finfo_max
  else Attention.Computed (sim query_pos key_pos).
Proof.
  unfold Attention.masked_fill_values, Attention.causal_mask, Attention.mask_value.
  destruct (query_pos <? key_pos) eqn:E.
  - assert (E' : (n - n + 1 <=? key_pos - query_pos) = true) by lia. now rewrite E'.
  - assert (E' : (n - n + 1 <=? key_pos - query_pos) = false) by lia. now rewrite E'.
Qed.

(** * Further properties of the source *)

(** ** The bucket function: clamp, exact regime, errors *)

(** X1. For [num_buckets >= 2] and a positive [max_distance] (both within
    64 bits) the bucket function raises nothing and returns a tensor of the
    shape of its argument, and no entry exceeds [num_buckets - 1]: the
    exact regime selects a distance below [num_buckets // 2], and the other
    branch is clamped by [torch.min] after the conversion to integers,
    whatever the floats were. *)
Theorem bucket_upper_bound :
  forall num_buckets max_distance (relative_position : itensor),
    2 <= num_buckets < 2 ^ 63 -> 1 <= max_distance < 2 ^ 63 ->
    exists buckets,
      T5RelativePositionBias._relative_position_bucket relative_position
        num_buckets max_distance = Ok buckets /\
      ishape buckets = ishape relative_position /\
      length (idata buckets) = length (idata relative_position) /\
      Forall (fun b => b <= num_buckets - 1) (idata buckets).
Proof.
  intros N D t HN HD.
  eexists. split; [apply relative_position_bucket_returns; lia|].
  cbn [ishape idata]. split; [reflexivity|]. split; [apply length_map|].
  apply Forall_forall. intros b Hb. apply in_map_iff in Hb as (r & <- & _).
  apply bucket_entry_le. Z.div_mod_to_equations. lia.
Qed.

Lemma bucket_upper_bound_witness :
  exists buckets,
    T5RelativePositionBias._relative_position_bucket
      {| ishape := [3]; idata := [5; -3; -4000] |} 6 3 = Ok buckets /\
    ishape buckets = [3] /\
    length (idata buckets) = 3%nat /\
    Forall (fun b => b <= 6 - 1) (idata buckets).
Proof.
  assert (H1 : 2 <= 6 < 2 ^ 63) by lia.
  assert (H2 : 1 <= 3 < 2 ^ 63) by lia.
  exact (@bucket_upper_bound 6 3 {| ishape := [3]; idata := [5; -3; -4000] |} H1 H2).
Defined.

(** X2. The exact regime is decided by integers alone.  For
    [num_buckets >= 2], a positive [max_distance] and an entry [r] of a
    64-bit tensor: a key at or ahead of the query ([r >= 0]) receives
    bucket [0]; a key fewer than [num_buckets // 2] positions behind the
    query receives its distance [-r]; and the most negative 64-bit integer,
    whose negation wraps around to itself, receives bucket [0] too. *)
Theorem bucket_exact_regime :
  forall num_buckets max_distance (relative_position : itensor) p r,
    2 <= num_buckets < 2 ^ 63 -> 1 <= max_distance < 2 ^ 63 ->
    nth_error (idata relative_position) p = Some r ->
    - 2 ^ 63 <= r < 2 ^ 63 ->
    exists buckets,
      T5RelativePositionBias._relative_position_bucket relative_position
        num_buckets max_distance = Ok buckets /\
      (0 <= r -> nth_error (idata buckets) p = Some 0) /\
      (- (num_buckets / 2) < r <= 0 -> nth_error (idata buckets) p = Some (- r)) /\
      (r = - 2 ^ 63 -> nth_error (idata buckets) p = Some 0).
Proof.
  intros N D t p r HN HD Hp Hr.
  assert (Hpos : 1 <= N / 2) by (Z.div_mod_to_equations; lia).
  assert (Hhalf : N / 2 < 2 ^ 63) by (Z.div_mod_to_equations; lia).
  eexists. split; [apply relative_position_bucket_returns; lia|].
  cbn [idata]. rewrite nth_error_map, Hp. cbn [option_map].
  split; [|split]; intros H; f_equal.
  - rewrite bucket_entry_small; unfold clamped_distance;
      rewrite int64_wrap_id by lia; lia.
  - rewrite bucket_entry_small; unfold clamped_distance;
      rewrite int64_wrap_id by lia; lia.
  - subst r. rewrite bucket_entry_small; unfold clamped_distance;
      change (int64_wrap (- - 2 ^ 63)) with (- 2 ^ 63); lia.
Qed.

Lemma bucket_exact_regime_witness :
  exists buckets,
    T5RelativePositionBias._relative_position_bucket
      {| ishape := [3]; idata := [5; -3; - 2 ^ 63] |} 32 128 = Ok buckets /\
    nth_error (idata buckets) 0 = Some 0 /\
    nth_error (idata buckets) 1 = Some (- -3) /\
    nth_error (idata buckets) 2 = Some 0.
Proof.
  assert (H1 : 2 <= 32 < 2 ^ 63) by lia.
  assert (H2 : 1 <= 128 < 2 ^ 63) by lia.
  destruct (@bucket_exact_regime 32 128
              {| ishape := [3]; idata := [5; -3; - 2 ^ 63] |}
              0%nat 5 H1 H2 eq_refl ltac:(lia)) as (b0 & Hb0 & Hahead & _ & _).
  destruct (@bucket_exact_regime 32 128
              {| ishape := [3]; idata := [5; -3; - 2 ^ 63] |}
              1%nat (-3) H1 H2 eq_refl ltac:(lia)) as (b1 & Hb1 & _ & Hnear & _).
  destruct (@bucket_exact_regime 32 128
              {| ishape := [3]; idata := [5; -3; - 2 ^ 63] |}
              2%nat (- 2 ^ 63) H1 H2 eq_refl ltac:(lia)) as (b2 & Hb2 & _ & _ & Hmin).
  exists b0. split; [exact Hb0|].
  assert (E1 : b1 = b0) by congruence. assert (E2 : b2 = b0) by congruence.
  rewrite <- E1 at 2. rewrite <- E2 at 2.
  split; [apply Hahead; lia|]. split; [apply Hnear; vm_compute; split; congruence|].
  apply Hmin. reflexivity.
Defined.



(** ** The bias module and the causal mask *)



Lemma filter_all {A} (f : A -> bool) l :
  (forall x, In x l -> f x = true) -> filter f l = l.
Proof.
  induction l as [|a l IH]; intros H; cbn; [reflexivity|].
  rewrite (H a (or_introl eq_refl)), IH; [reflexivity|].
  intros x Hx. apply H. now right.
Qed.

Lemma filter_none {A} (f : A -> bool) l :
  (forall x, In x l -> f x = false) -> filter f l = [].
Proof.
  induction l as [|a l IH]; intros H; cbn; [reflexivity|].
  rewrite (H a (or_introl eq_refl)). apply IH.
  intros x Hx. apply H. now right.
Qed.

(** X6. Under the causal mask of a sequence of length [n], the query at
    position [p] keeps exactly the keys [0 .. p]: [p + 1] of them, so no
    row of the similarity matrix is masked entirely and the last query
    sees every key. *)
Theorem causal_mask_visible_keys :
  forall n p,
    0 <= p < n ->
    visible_keys n p = arange (p + 1) /\
    length (visible_keys n p) = Z.to_nat (p + 1).
Proof.
  intros n p Hp.
  assert (Hvis : visible_keys n p = arange (p + 1)).
  { unfold visible_keys, arange, Attention.causal_mask.
    rewrite filter_map_swap.
    rewrite (filter_ext _ (fun k => (k <=? Z.to_nat p)%nat)).
    2:{ intros k. apply eq_true_iff_eq. rewrite negb_true_iff, Z.leb_gt, Nat.leb_le. lia. }
    f_equal.
    replace (Z.to_nat n) with (Z.to_nat (p + 1) + (Z.to_nat n - Z.to_nat (p + 1)))%nat by lia.
    rewrite seq_app, filter_app.
    rewrite filter_all, filter_none; [now rewrite app_nil_r| |].
    - intros k Hk. apply in_seq in Hk. apply Nat.leb_gt. lia.
    - intros k Hk. apply in_seq in Hk. apply Nat.leb_le. lia. }
  split; [exact Hvis|].
  rewrite Hvis. unfold arange. now rewrite length_map, length_seq.
Qed.

Lemma causal_mask_visible_keys_witness :
  visible_keys 5 2 = arange (2 + 1) /\
  length (visible_keys 5 2) = Z.to_nat (2 + 1).
Proof. apply causal_mask_visible_keys. lia. Defined.

(** ** The attention block and the stack: contracts and failures *)

(** X7. An attention block built with positive [heads] and [dim_head]
    maps a tensor of shape [(b, n, dim)] to a tensor of the same shape.  It
    raises when the last axis is not [dim] (the query projection rejects
    it), and when the input has no batch axis (the split into heads expects
    three axes). *)
Theorem attention_forward_contract :
  forall dim heads dim_head p s a s',
    Attention.init dim heads dim_head p s = Ok (a, s') ->
    0 < heads -> 0 < dim_head ->
    (forall b n, Attention.forward a [b; n; dim] = Ok [b; n; dim]) /\
    (forall b n d, d <> dim ->
       Attention.forward a [b; n; d] =
       Raise (RuntimeError "mat1 and mat2 shapes cannot be multiplied")) /\
    (forall n, Attention.forward a [n; dim] =
               Raise (EinopsError "wrong number of dimensions")).
Proof.
  intros * H Hh Hd. apply Attention_init_inv in H as (Ha & _ & _).
  split; [|split].
  - intros b n. now apply (Attention_forward_shape b n Ha).
  - intros b n d Hne. destruct Ha.
    unfold Attention.forward, Attention.project, Linear.forward.
    cbn [last_dim rev app bind result_monad]. rewrite as_q_in0.
    assert (E : (d =? dim) = false) by lia. now rewrite E.
  - intros n. destruct Ha.
    unfold Attention.forward, Attention.project.
    change [n; dim] with ([n] ++ [dim]).
    rewrite !Linear_forward_shape by assumption.
    rewrite as_q_out0, as_kv_out0. cbn [bind result_monad].
    rewrite chunk2_even by assumption. reflexivity.
Qed.

Lemma attention_forward_contract_witness :
  exists a s',
    Attention.init 32 4 8 0 0%nat = Ok (a, s') /\
    (forall b n, Attention.forward a [b; n; 32] = Ok [b; n; 32]) /\
    (forall b n d, d <> 32 ->
       Attention.forward a [b; n; d] =
       Raise (RuntimeError "mat1 and mat2 shapes cannot be multiplied")) /\
    (forall n, Attention.forward a [n; 32] =
               Raise (EinopsError "wrong number of dimensions")).
Proof.
  eexists. eexists. split; [vm_compute; reflexivity|].
  eapply (@attention_forward_contract 32 4 8 0 0%nat).
  - vm_compute. reflexivity.
  - lia.
  - lia.
Defined.

(** X8. A stack built for a [depth] that is zero or negative has no layer,
    and its forward pass returns every input as it is, whatever its shape;
    for every [depth], a stack built with positive [heads] and [dim_head]
    keeps the shape [(b, n, dim)]. *)
Theorem transformer_forward_contract :
  forall dim depth heads dim_head p q s tr s',
    Transformer.init dim depth heads dim_head p q s = Ok (tr, s') ->
    (depth <= 0 -> stack tr = [] /\ forall x, Transformer.forward tr x = Ok x) /\
    (0 < heads -> 0 < dim_head ->
     forall b n, Transformer.forward tr [b; n; dim] = Ok [b; n; dim]).
Proof.
  intros * H.
  apply Transformer_init_inv in H as (attn & ffn & s1 & Ha & Hf & Hst).
  unfold Transformer.forward. fold (stack tr). split.
  - intros Hd. replace (Z.to_nat depth) with 0%nat in Hst by lia.
    cbn in Hst. rewrite Hst. split; reflexivity.
  - intros Hh Hdh b n. rewrite Hst.
    apply forward_layers_shape with (heads := heads) (dim_head := dim_head);
      try assumption.
    apply Forall_map_seq. intros k. now apply layer_at_sizes.
Qed.

Lemma transformer_forward_contract_witness :
  exists tr s',
    Transformer.init 32 (-3) 4 8 0 false 0%nat = Ok (tr, s') /\
    stack tr = [] /\
    (forall x, Transformer.forward tr x = Ok x) /\
    (forall b n, Transformer.forward tr [b; n; 32] = Ok [b; n; 32]).
Proof.
  eexists. eexists. split; [vm_compute; reflexivity|].
  destruct (@transformer_forward_contract 32 (-3) 4 8 0 false 0%nat _ _ eq_refl)
    as [Hempty Hshape].
  destruct Hempty as [H1 H2]; [lia|].
  split; [exact H1|]. split; [exact H2|].
  apply Hshape; lia.
Defined.

(** X9. The forward pass of a constructed model raises [IndexError] as
    soon as one token identifier is negative or not below [num_tokens]. *)
Theorem forward_rejects_foreign_token :
  forall num_tokens dim depth dim_head heads q s m s' (x : itensor) v,
    LaMDA.init num_tokens dim depth dim_head heads q s = Ok (m, s') ->
    In v (idata x) -> v < 0 \/ num_tokens <= v ->
    LaMDA.forward m x = Raise IndexError.
Proof.
  intros * H Hin Hv. apply LaMDA_init_inv in H as (_ & _ & Hrows & _).
  unfold LaMDA.forward, Embedding.forward. rewrite Hrows.
  destruct (forallb _ (idata x)) eqn:E; [|reflexivity].
  rewrite forallb_forall in E. specialize (E v Hin). lia.
Qed.

Lemma forward_rejects_foreign_token_witness :
  exists m s',
    LaMDA.init 100 32 2 8 4 false 0%nat = Ok (m, s') /\
    LaMDA.forward m {| ishape := [1; 3]; idata := [5; 100; 7] |} = Raise IndexError.
Proof.
  eexists. eexists. split; [vm_compute; reflexivity|].
  eapply (@forward_rejects_foreign_token 100 32 2 8 4 false 0%nat _ _
            {| ishape := [1; 3]; idata := [5; 100; 7] |} 100).
  - vm_compute. reflexivity.
  - cbn. auto.
  - lia.
Defined.

(** X10. The query scale [dim_head ** -0.5] makes the constructor of the
    attention block raise [ZeroDivisionError] for [dim_head = 0]; since the
    model hands its [heads] to the stack as [dim_head], a model configured
    with [heads = 0] cannot be constructed, whatever its [dim_head]. *)
Theorem zero_heads_cannot_be_built :
  forall num_tokens dim depth dim_head heads q p s,
    Attention.init dim heads 0 p s = Raise ZeroDivisionError /\
    (0 <= num_tokens -> 0 <= dim ->
     LaMDA.init num_tokens dim depth dim_head 0 q s = Raise ZeroDivisionError).
Proof.
  intros. split; [reflexivity|]. intros Hn Hd.
  unfold LaMDA.init, Embedding.init, fresh, raise_ctor.
  cbn [bind ctor_monad].
  assert (E1 : (num_tokens <? 0) = false) by lia.
  assert (E2 : (dim <? 0) = false) by lia.
  rewrite E1, E2. reflexivity.
Qed.

Lemma zero_heads_cannot_be_built_witness :
  Attention.init 32 4 0 0 0%nat = Raise ZeroDivisionError /\
  LaMDA.init 100 32 2 8 0 false 0%nat = Raise ZeroDivisionError.
Proof.
  destruct (zero_heads_cannot_be_built 100 32 2 8 4 false 0 0%nat) as [H1 H2].
  split; [exact H1 | apply H2; lia].
Defined.

(** ** The two quantization flags *)

Lemma Attention_init_float dim heads dim_head p s a s' :
  Attention.init dim heads dim_head p s = Ok (a, s') ->
  Forall (fun l => Linear.weights l = Linear.Float) (linears a).
Proof.
  intros H.
  unfold Attention.init, T5RelativePositionBias.init, Linear.init, Dropout.init,
    Embedding.init, py_pow, lift, raise_ctor, fresh in H.
  ctor_inv H. inversion H; subst. repeat constructor.
Qed.

Lemma FeedForward_init_float dim mult p s f s' :
  FeedForward.init dim mult p s = Ok (f, s') ->
  Forall (fun l => Linear.weights l = Linear.Float) (linears f).
Proof.
  intros H.
  unfold FeedForward.init, Sequential.init, SquaredRelu.init, Linear.init,
    Dropout.init, raise_ctor, fresh in H.
  ctor_inv H. inversion H; subst. repeat constructor.
Qed.

Lemma Attention_convert_quantized (a : Attention.t) :
  Forall (fun l => Linear.weights l = Linear.DynamicQuantized) (linears (convert a)).
Proof. repeat (constructor; [reflexivity|]). constructor. Qed.

Lemma FeedForward_convert_quantized (f : FeedForward.t) :
  Forall (fun l => Linear.weights l = Linear.DynamicQuantized) (linears (convert f)).
Proof. repeat (constructor; [reflexivity|]). constructor. Qed.

Lemma stack_linears (P : Linear.t -> Prop) dim attn ffn s n :
  Forall P (linears attn) -> Forall P (linears ffn) ->
  Forall P (flat_map linears
              (map (fun k => layer_at dim attn ffn (s + 7 * k)%nat) (seq 0 n))).
Proof.
  intros Ha Hf. apply Forall_flat_map. apply Forall_map_seq. intros k.
  change (linears (layer_at dim attn ffn (s + 7 * k)%nat))
    with (linears attn ++ linears ffn).
  apply Forall_app. now split.
Qed.

Lemma Transformer_init_weights dim depth heads dim_head p q s tr s' :
  Transformer.init dim depth heads dim_head p q s = Ok (tr, s') ->
  Forall (fun l => Linear.weights l =
                   if q then Linear.DynamicQuantized else Linear.Float)
         (linears tr).
Proof.
  intros H. unfold Transformer.init in H.
  cbn [bind ctor_monad fresh] in H.
  step_bind H. apply Attention_init_float in E.
  step_bind H. apply FeedForward_init_float in E0.
  destruct q; cbn [quantize_dynamic ret ctor_monad] in H;
    step_bind H; apply append_layers_inv in E1 as [E1 _];
    inversion H; subst;
    change (linears ?t) with (flat_map linears (stack t)); unfold stack;
    cbn [Transformer.layers ModuleList.modules];
    apply stack_linears;
    auto using Attention_convert_quantized, FeedForward_convert_quantized.
Qed.

(** X11. The two flags of [lamda_model] as the code has them.  With
    [quantized_logits] unset, the affine layers of the stack are quantized
    exactly when [quantized_transformer] is set, and the output projection
    stays in full precision; with [quantized_logits] set, no affine layer
    of the returned model is left in full precision, whatever
    [quantized_transformer]. *)
Theorem quantization_flags :
  forall CFG quantized_logits quantized_transformer s m s',
    lamda_model CFG quantized_logits quantized_transformer s = Ok (m, s') ->
    if quantized_logits then
      Forall (fun l => Linear.weights l = Linear.DynamicQuantized) (linears m)
    else
      Forall (fun l => Linear.weights l =
                       if quantized_transformer then Linear.DynamicQuantized
                       else Linear.Float)
             (linears (LaMDA.transformer m)) /\
      Linear.weights (logits_proj m) = Linear.Float.
Proof.
  intros CFG ql qt s m s' H. destruct ql.
  - now apply lamda_model_quantized_logits_all in H.
  - unfold lamda_model in H. cbn [bind ctor_monad] in H.
    step_bind H. cbn [ret ctor_monad] in H. inversion H; subst.
    apply LaMDA_init_inv in E as (s1 & Htr & _ & _ & _ & _ & _ & Hw).
    split; [|exact Hw]. now apply Transformer_init_weights in Htr.
Qed.

Lemma quantization_flags_witness :
  exists m s',
    lamda_model demo_config false true 0%nat = Ok (m, s') /\
    Forall (fun l => Linear.weights l = Linear.DynamicQuantized)
           (linears (LaMDA.transformer m)) /\
    Linear.weights (logits_proj m) = Linear.Float.
Proof.
  eexists. eexists. split; [vm_compute; reflexivity|].
  eapply (@quantization_flags demo_config false true 0%nat).
  vm_compute. reflexivity.
Defined.

(** ** The activations *)

(** X13. The gated GELU unit halves an even feature axis; it raises on a
    feature axis of size one (a single chunk cannot be unpacked into two
    names) and on an odd feature axis of size five or more (the two chunks
    differ in size and cannot be multiplied). *)
Theorem geglu_feature_axis :
  forall lead k,
    (0 < k -> GEGLU.forward (lead ++ [k * 2]) = Ok (lead ++ [k])) /\
    GEGLU.forward (lead ++ [1]) =
      Raise (ValueError "not enough values to unpack") /\
    (2 <= k -> GEGLU.forward (lead ++ [k * 2 + 1]) =
               Raise (RuntimeError "the size of the tensors must match")).
Proof.
  intros lead k. split; [|split].
  - intros Hk. unfold GEGLU.forward. rewrite chunk2_even by assumption.
    cbn [bind result_monad]. apply broadcast_shapes_same.
  - unfold GEGLU.forward, chunk2, last_dim. rewrite rev_unit. reflexivity.
  - intros Hk. unfold GEGLU.forward, chunk2, last_dim, set_last_dim.
    rewrite rev_unit, removelast_last. cbn [bind result_monad].
    assert (E1 : (k * 2 + 1 =? 0) = false) by lia. rewrite E1.
    assert (E2 : (k * 2 + 1 + 1) / 2 = k + 1).
    { symmetry. apply Z.div_unique with 0; lia. }
    rewrite E2.
    assert (E3 : (k * 2 + 1 - (k + 1) =? 0) = false) by lia. rewrite E3.
    replace (k * 2 + 1 - (k + 1)) with k by lia.
    unfold broadcast_shapes. rewrite !rev_unit.
    cbn [broadcast_rev bind result_monad]. unfold broadcast_dim.
    assert (E4 : (k + 1 =? k) = false) by lia.
    assert (E5 : (k + 1 =? 1) = false) by lia.
    assert (E6 : (k =? 1) = false) by lia.
    now rewrite E4, E5, E6.
Qed.

Lemma geglu_feature_axis_witness :
  GEGLU.forward ([2; 3] ++ [4 * 2]) = Ok ([2; 3] ++ [4]) /\
  GEGLU.forward ([2; 3] ++ [1]) = Raise (ValueError "not enough values to unpack") /\
  GEGLU.forward ([2; 3] ++ [4 * 2 + 1]) =
    Raise (RuntimeError "the size of the tensors must match").
Proof.
  destruct (geglu_feature_axis [2; 3] 4) as (H1 & H2 & H3).
  split; [apply H1; lia|]. split; [exact H2 | apply H3; lia].
Defined.

(** ** Trainable parameters *)

Lemma append_layers_state n dim attn ffn s ls s' :
  Transformer.append_layers n dim attn ffn s = Ok (ls, s') ->
  s' = (s + 7 * n)%nat.
Proof.
  intros H. destruct (Z_lt_ge_dec dim 0) as [Hneg|Hpos].
  - destruct n as [|n].
    + cbn in H. inversion H. lia.
    + cbn [Transformer.append_layers bind ctor_monad] in H.
      pose proof (Transformer_layer_neg attn ffn s Hneg) as E.
      destruct (Transformer.layer dim attn ffn s) as [[l s1]|e];
        [discriminate E | discriminate H].
  - rewrite append_layers_ok in H by lia. now inversion H.
Qed.

Lemma Attention_init_params dim heads dim_head p s a s' :
  Attention.init dim heads dim_head p s = Ok (a, s') ->
  named_parameters a = attention_params s dim heads dim_head /\ s' = (s + 7)%nat.
Proof.
  intros H.
  unfold Attention.init, T5RelativePositionBias.init, Linear.init, Dropout.init,
    Embedding.init, py_pow, lift, raise_ctor, fresh in H.
  ctor_inv H. inversion H; subst. split; [|lia].
  unfold attention_params, named_parameters, Attention_Parameters,
    T5RelativePositionBias_Parameters, Linear_Parameters, Dropout_Parameters,
    Embedding_Parameters, named_parameters.
  cbn. repeat f_equal; first [reflexivity | lia].
Qed.

Lemma FeedForward_init_params dim mult p s f s' :
  FeedForward.init dim mult p s = Ok (f, s') ->
  named_parameters f = feedforward_params s dim mult /\ s' = (s + 6)%nat.
Proof.
  intros H.
  unfold FeedForward.init, Sequential.init, SquaredRelu.init, Linear.init,
    Dropout.init, raise_ctor, fresh in H.
  ctor_inv H. inversion H; subst. split; [|lia].
  unfold feedforward_params, named_parameters, FeedForward_Parameters,
    Sequential_Parameters, pair_Parameters, Linear_Parameters, Dropout_Parameters,
    SquaredRelu_Parameters, named_parameters.
  cbn. repeat f_equal; first [reflexivity | lia].
Qed.

Lemma layer_at_params dim (attn : Attention.t) (ffn : FeedForward.t) i :
  named_parameters (layer_at dim attn ffn i) =
  norm_params (i + 1)%nat dim ++ named_parameters attn ++
  norm_params (i + 4)%nat dim ++ named_parameters ffn.
Proof.
  unfold layer_at, norm_params.
  unfold named_parameters at 1, ModuleList_Parameters.
  unfold named_parameters at 1, pair_Parameters.
  unfold named_parameters at 1 3, Residual_Parameters.
  unfold named_parameters at 1 4, PreNorm_Parameters.
  cbn [ModuleList.modules fst snd Residual.fn PreNorm.norm PreNorm.fn].
  unfold named_parameters at 1 3, LayerNorm_Parameters.
  cbn [LayerNorm.id LayerNorm.normalized_shape].
  now rewrite <- !app_assoc.
Qed.

Lemma Transformer_init_float_params dim depth heads dim_head p s tr s' :
  Transformer.init dim depth heads dim_head p false s = Ok (tr, s') ->
  named_parameters tr =
    flat_map (fun k => norm_params (s + 15 + 7 * k + 1)%nat dim ++
                       attention_params (s + 2)%nat dim heads dim_head ++
                       norm_params (s + 15 + 7 * k + 4)%nat dim ++
                       feedforward_params (s + 9)%nat dim FeedForward.default_mult)
             (seq 0 (Z.to_nat depth)) /\
  s' = (s + 15 + 7 * Z.to_nat depth)%nat.
Proof.
  intros H. unfold Transformer.init in H.
  cbn [bind ctor_monad fresh] in H.
  step_bind H. apply Attention_init_params in E as [HA ->].
  step_bind H. apply FeedForward_init_params in E as [HF ->].
  cbn [ret ctor_monad] in H.
  step_bind H. pose proof (append_layers_state _ _ _ _ _ E) as ->.
  apply append_layers_inv in E as [-> _].
  match type of H with
  | Ok (?c, ?n) = _ => assert (Htr : tr = c) by congruence;
                       assert (Hs : s' = n) by congruence
  end.
  split; [|lia]. rewrite Htr.
  unfold named_parameters at 1, Transformer_Parameters.
  unfold named_parameters at 1, ModuleList_Parameters.
  unfold named_parameters at 1, list_Parameters.
  cbn [Transformer.layers ModuleList.modules].
  rewrite flat_map_concat_map, map_map, <- flat_map_concat_map.
  apply flat_map_ext. intros k.
  rewrite layer_at_params, HA, HF.
  f_equal; [f_equal; lia | f_equal; [f_equal; lia | f_equal; f_equal; lia]].
Qed.

Lemma LaMDA_init_float_params num_tokens dim depth dim_head heads s m s' :
  LaMDA.init num_tokens dim depth dim_head heads false s = Ok (m, s') ->
  named_parameters m =
    [{| p_owner := (s + 1)%nat; p_name := Weight; p_numel := num_tokens * dim |}] ++
    flat_map (fun k => norm_params (s + 17 + 7 * k + 1)%nat dim ++
                       attention_params (s + 4)%nat dim dim_head heads ++
                       norm_params (s + 17 + 7 * k + 4)%nat dim ++
                       feedforward_params (s + 11)%nat dim FeedForward.default_mult)
             (seq 0 (Z.to_nat depth)) ++
    norm_params (s + 17 + 7 * Z.to_nat depth)%nat dim ++
    [{| p_owner := (s + 17 + 7 * Z.to_nat depth + 1)%nat; p_name := Weight;
        p_numel := num_tokens * dim |};
     {| p_owner := (s + 17 + 7 * Z.to_nat depth + 1)%nat; p_name := Bias;
        p_numel := num_tokens |}].
Proof.
  intros H. unfold LaMDA.init in H.
  cbn [bind ctor_monad fresh] in H.
  step_bind H. step_bind H.
  apply Transformer_init_float_params in E0 as [HT ->].
  unfold Embedding.init, fresh, raise_ctor in E. ctor_inv E.
  assert (Hemb : t = {| Embedding.id := S s; Embedding.num_embeddings := num_tokens;
                        Embedding.embedding_dim := dim |}) by congruence.
  assert (Ho : o = S (S s)) by congruence.
  clear E. subst t o.
  unfold LayerNorm.init, Linear.init, Sequential.init, fresh, raise_ctor in H.
  ctor_inv H.
  match type of H with
  | Ok (?c, _) = _ => assert (Hm : m = c) by congruence
  end.
  clear H. rewrite Hm.
  unfold named_parameters at 1, LaMDA_Parameters.
  cbn [LaMDA.token_emb LaMDA.transformer LaMDA.to_logits].
  rewrite HT.
  unfold named_parameters, Embedding_Parameters, Sequential_Parameters,
    pair_Parameters, LayerNorm_Parameters, Linear_Parameters, named_parameters.
  cbn [Embedding.id Embedding.num_embeddings Embedding.embedding_dim
       Sequential.modules fst snd LayerNorm.id LayerNorm.normalized_shape
       Linear.id Linear.weights Linear.bias Linear.out_features Linear.in_features app].
  f_equal; [f_equal; lia|].
  f_equal.
  - apply flat_map_ext. intros k.
    f_equal; [f_equal; lia | f_equal; [f_equal; lia | f_equal; f_equal; lia]].
  - unfold norm_params. cbn [app].
    repeat (f_equal; [f_equal; lia|]). do 2 f_equal. lia.
Qed.

Lemma unique_In seen l x :
  In x (unique seen l) <-> In x l /\ ~ In x seen.
Proof.
  revert seen. induction l as [|p l IH]; intros seen; cbn [unique].
  - cbn. tauto.
  - destruct (in_dec param_eq_dec p seen) as [Hin|Hnin].
    + rewrite IH. cbn [In]. split.
      * intros [H1 H2]. tauto.
      * intros [[->|H1] H2]; [contradiction|tauto].
    + cbn [In]. rewrite IH. cbn [In]. split.
      * intros [->|[H1 H2]]; tauto.
      * intros [[->|H1] H2]; [tauto|].
        destruct (param_eq_dec p x) as [->|Hne]; [tauto|]. right. tauto.
Qed.

Lemma unique_NoDup seen l : NoDup (unique seen l).
Proof.
  revert seen. induction l as [|p l IH]; intros seen; cbn [unique].
  - constructor.
  - destruct (in_dec param_eq_dec p seen) as [Hin|Hnin]; [apply IH|].
    constructor; [|apply IH].
    rewrite unique_In. cbn [In]. tauto.
Qed.

Lemma total_numel_app l1 l2 :
  total_numel (l1 ++ l2) = total_numel l1 + total_numel l2.
Proof.
  unfold total_numel. induction l1 as [|p l1 IH]; cbn; [reflexivity|].
  cbn in IH. rewrite IH. lia.
Qed.

Lemma total_numel_Permutation l1 l2 :
  Permutation l1 l2 -> total_numel l1 = total_numel l2.
Proof.
  unfold total_numel. induction 1; cbn in *; lia.
Qed.

(** Counting every parameter once amounts to summing over any list without
    repetition that has the same members. *)
Lemma total_numel_unique l c :
  NoDup c -> (forall x, In x l <-> In x c) ->
  total_numel (unique [] l) = total_numel c.
Proof.
  intros Hc Hin. apply total_numel_Permutation.
  apply NoDup_Permutation; [apply unique_NoDup | assumption |].
  intros x. rewrite unique_In, Hin. cbn. tauto.
Qed.

Lemma norms_facts s dim n : forall a,
  let norms := flat_map (fun k => norm_params (s + 7 * k + 1)%nat dim ++
                                  norm_params (s + 7 * k + 4)%nat dim)
                        (seq a n) in
  NoDup norms /\
  Forall (fun x => (s + 7 * a + 1 <= p_owner x < s + 7 * (a + n))%nat) norms /\
  total_numel norms = 4 * dim * Z.of_nat n.
Proof.
  induction n as [|n IH]; intros a; cbn [seq flat_map].
  - cbn. repeat split; [constructor | constructor | lia].
  - destruct (IH (S a)) as (Hnd & Hrange & Hsum). cbn zeta in *.
    rewrite Forall_forall in Hrange.
    split; [|split].
    + apply NoDup_app.
      * unfold norm_params. cbn [app].
        repeat (constructor;
                [cbn [In]; intros Hin;
                 repeat (destruct Hin as [Hin|Hin]; [inversion Hin; lia|]);
                 exact Hin|]).
        constructor.
      * exact Hnd.
      * intros x Hx Hx'. apply Hrange in Hx'.
        unfold norm_params in Hx. cbn [app In] in Hx.
        repeat (destruct Hx as [Hx|Hx]; [subst x; cbn in Hx'; lia|]).
        exact Hx.
    + apply Forall_app. split.
      * unfold norm_params. cbn [app]. repeat (constructor; [cbn; lia|]). constructor.
      * apply Forall_forall. intros x Hx. apply Hrange in Hx. lia.
    + rewrite total_numel_app, Hsum, Nat2Z.inj_succ.
      unfold norm_params, total_numel. cbn [map fold_right app p_numel]. lia.
Qed.

Lemma in_layers_iff {A} (f g : nat -> list A) (pa pf : list A) n x :
  (0 < n)%nat ->
  In x (flat_map (fun k => f k ++ pa ++ g k ++ pf) (seq 0 n)) <->
  In x pa \/ In x pf \/ In x (flat_map (fun k => f k ++ g k) (seq 0 n)).
Proof.
  intros Hn. rewrite !in_flat_map. split.
  - intros (k & Hk & Hx). rewrite !in_app_iff in Hx.
    destruct Hx as [Hx|[Hx|[Hx|Hx]]]; auto;
      right; right; exists k; rewrite in_app_iff; auto.
  - assert (H0 : In 0%nat (seq 0 n)) by (apply in_seq; lia).
    intros [Hx|[Hx|(k & Hk & Hx)]].
    + exists 0%nat. rewrite !in_app_iff. auto.
    + exists 0%nat. rewrite !in_app_iff. auto.
    + exists k. rewrite !in_app_iff. rewrite in_app_iff in Hx. tauto.
Qed.

Ltac nodup_explicit :=
  repeat (constructor;
          [cbn [In]; intros Hin;
           repeat (destruct Hin as [Hin|Hin]; [inversion Hin; lia|]);
           exact Hin|]);
  constructor.

Ltac owners_explicit :=
  repeat (constructor; [cbn; lia|]); constructor.

Lemma float_total num_tokens dim dim_head heads s n :
  total_numel
    (unique []
       ([{| p_owner := (s + 1)%nat; p_name := Weight; p_numel := num_tokens * dim |}] ++
        flat_map (fun k => norm_params (s + 17 + 7 * k + 1)%nat dim ++
                           attention_params (s + 4)%nat dim dim_head heads ++
                           norm_params (s + 17 + 7 * k + 4)%nat dim ++
                           feedforward_params (s + 11)%nat dim FeedForward.default_mult)
                 (seq 0 n) ++
        norm_params (s + 17 + 7 * n)%nat dim ++
        [{| p_owner := (s + 17 + 7 * n + 1)%nat; p_name := Weight;
            p_numel := num_tokens * dim |};
         {| p_owner := (s + 17 + 7 * n + 1)%nat; p_name := Bias;
            p_numel := num_tokens |}])) =
  num_tokens * dim
  + (if (0 <? n)%nat
     then (dim_head * heads * dim + heads * 2 * dim
           + (dim * (dim_head * heads) + dim) + 32 * dim_head)
          + (dim * 4 * 2 * dim + dim * 4 * 2 + (dim * (dim * 4 * 2) + dim))
     else 0)
  + 4 * dim * Z.of_nat n
  + (2 * dim + num_tokens * dim + num_tokens).
Proof.
  set (E := {| p_owner := (s + 1)%nat; p_name := Weight; p_numel := num_tokens * dim |}).
  set (PA := attention_params (s + 4)%nat dim dim_head heads).
  set (PF := feedforward_params (s + 11)%nat dim FeedForward.default_mult).
  set (tail := norm_params (s + 17 + 7 * n)%nat dim ++
               [{| p_owner := (s + 17 + 7 * n + 1)%nat; p_name := Weight;
                   p_numel := num_tokens * dim |};
                {| p_owner := (s + 17 + 7 * n + 1)%nat; p_name := Bias;
                   p_numel := num_tokens |}]).
  assert (Htail : NoDup tail) by (subst tail; unfold norm_params; cbn [app]; nodup_explicit).
  assert (Htail_range :
            Forall (fun x => (s + 17 + 7 * n <= p_owner x)%nat) tail)
    by (subst tail; unfold norm_params; cbn [app]; owners_explicit).
  assert (Htotal_tail : total_numel tail = 2 * dim + num_tokens * dim + num_tokens)
    by (subst tail; unfold norm_params, total_numel;
        cbn [map fold_right p_numel app]; ring).
  destruct (0 <? n)%nat eqn:Hd.
  - (* at least one layer *)
    assert (Hn : (0 < n)%nat) by now apply Nat.ltb_lt.
    destruct (norms_facts (s + 17)%nat dim n 0) as (Hnd & Hrange & Hsum).
    cbn zeta in Hnd, Hrange, Hsum.
    set (norms := flat_map (fun k => norm_params (s + 17 + 7 * k + 1)%nat dim ++
                                     norm_params (s + 17 + 7 * k + 4)%nat dim)
                           (seq 0 n)) in *.
    rewrite (@total_numel_unique _ (([E] ++ PA ++ PF) ++ norms ++ tail)).
    + rewrite !total_numel_app, Hsum, Htotal_tail.
      subst E PA PF. unfold attention_params, feedforward_params, total_numel,
        FeedForward.default_mult.
      cbn [map fold_right p_numel app].
      ring.
    + rewrite Forall_forall in Hrange, Htail_range.
      apply NoDup_app; [|apply NoDup_app; assumption || idtac|].
      * subst E PA PF. unfold attention_params, feedforward_params.
        cbn [app]. nodup_explicit.
      * intros x Hx Hx'. apply Hrange in Hx. apply Htail_range in Hx'. lia.
      * intros x Hx Hx'.
        assert (Hlow : (p_owner x < s + 17)%nat).
        { subst E PA PF. unfold attention_params, feedforward_params in Hx.
          cbn [app In] in Hx.
          repeat (destruct Hx as [Hx|Hx]; [subst x; cbn; lia|]).
          contradiction. }
        apply in_app_iff in Hx' as [Hx'|Hx'];
          [apply Hrange in Hx' | apply Htail_range in Hx']; lia.
    + intros x. rewrite !in_app_iff.
      rewrite (in_layers_iff _ _ PA PF x Hn). fold norms. cbn [In]. tauto.
  - (* no layer *)
    assert (Hn : n = 0%nat) by (apply Nat.ltb_ge in Hd; lia). rewrite Hn in *.
    cbn [seq flat_map app].
    rewrite (@total_numel_unique _ (E :: tail)).
    + change (E :: tail) with ([E] ++ tail).
      rewrite total_numel_app, Htotal_tail.
      subst E. unfold total_numel. cbn [map fold_right p_numel].
      cbn [Z.of_nat]. ring.
    + constructor; [|assumption].
      intros Hin. rewrite Forall_forall in Htail_range.
      apply Htail_range in Hin. subst E. cbn in Hin. lia.
    + intros x. tauto.
Qed.

(** X14. The number of trainable parameters of a model built without
    quantization.  The embedding table and the output head are counted
    once, the one attention block and the one feedforward block are counted
    once however many layers reuse them, and each layer adds only the
    [4 * dim] entries of its two layer normalisations; with no layer the
    two blocks are not part of the model at all. *)
Theorem parameter_count :
  forall num_tokens dim depth dim_head heads s m s',
    LaMDA.init num_tokens dim depth dim_head heads false s = Ok (m, s') ->
    n_params m =
      num_tokens * dim
      + (if 0 <? depth
         then (dim_head * heads * dim + heads * 2 * dim
               + (dim * (dim_head * heads) + dim) + 32 * dim_head)
              + (dim * 4 * 2 * dim + dim * 4 * 2 + (dim * (dim * 4 * 2) + dim))
         else 0)
      + 4 * dim * Z.max depth 0
      + (2 * dim + num_tokens * dim + num_tokens).
Proof.
  intros * H. apply LaMDA_init_float_params in H.
  unfold n_params, parameters. rewrite H, float_total.
  destruct (0 <? depth) eqn:Hd.
  - assert (E : (0 <? Z.to_nat depth)%nat = true) by (apply Nat.ltb_lt; lia).
    rewrite E. replace (Z.of_nat (Z.to_nat depth)) with (Z.max depth 0) by lia.
    reflexivity.
  - assert (E : (0 <? Z.to_nat depth)%nat = false) by (apply Nat.ltb_ge; lia).
    rewrite E. replace (Z.of_nat (Z.to_nat depth)) with (Z.max depth 0) by lia.
    reflexivity.
Qed.

Lemma parameter_count_witness :
  exists m s',
    LaMDA.init 100 32 2 8 4 false 0%nat = Ok (m, s') /\
    n_params m = 26084.
Proof.
  eexists. eexists. split; [vm_compute; reflexivity|].
  etransitivity;
    [eapply (@parameter_count 100 32 2 8 4 0%nat); vm_compute; reflexivity
    | reflexivity].
Defined.

Lemma Attention_init_table dim heads dim_head p s a s' :
  Attention.init dim heads dim_head p s = Ok (a, s') ->
  T5RelativePositionBias.relative_attention_bias (Attention.rel_pos_bias a) =
    {| Embedding.id := (s + 6)%nat; Embedding.num_embeddings := 32;
       Embedding.embedding_dim := heads |} /\
  0 <= heads * dim_head /\ 0 <= dim_head * 2 /\ 0 <= heads /\ 0 <= dim.
Proof.
  intros H.
  unfold Attention.init, T5RelativePositionBias.init, Linear.init, Dropout.init,
    Embedding.init, py_pow, lift, raise_ctor, fresh in H.
  ctor_inv H. inversion H; subst. cbn.
  split; [f_equal; lia|]. lia.
Qed.

Lemma quantized_attention_params f (a : Attention.t) :
  named_parameters (convert (relabel f a)) =
  named_parameters
    (relabel f (T5RelativePositionBias.relative_attention_bias
                  (Attention.rel_pos_bias a))).
Proof. reflexivity. Qed.

Lemma quantized_feedforward_params f (x : FeedForward.t) :
  named_parameters (convert (relabel f x)) = [].
Proof. reflexivity. Qed.

Lemma LaMDA_init_float_exact num_tokens dim depth dim_head heads s m s' :
  LaMDA.init num_tokens dim depth dim_head heads false s = Ok (m, s') ->
  exists attn ffn,
    m = {| LaMDA.id := s; LaMDA.num_tokens := num_tokens; LaMDA.dim := dim;
           LaMDA.token_emb :=
             {| Embedding.id := (s + 1)%nat; Embedding.num_embeddings := num_tokens;
                Embedding.embedding_dim := dim |};
           LaMDA.transformer :=
             {| Transformer.id := (s + 2)%nat;
                Transformer.layers :=
                  {| ModuleList.id := (s + 3)%nat;
                     ModuleList.modules :=
                       map (fun k => layer_at dim attn ffn (s + 17 + 7 * k)%nat)
                           (seq 0 (Z.to_nat depth)) |} |};
           LaMDA.to_logits :=
             {| Sequential.id := (s + 19 + 7 * Z.to_nat depth)%nat;
                Sequential.modules :=
                  ({| LayerNorm.id := (s + 17 + 7 * Z.to_nat depth)%nat;
                      LayerNorm.normalized_shape := dim |},
                   {| Linear.id := (s + 18 + 7 * Z.to_nat depth)%nat;
                      Linear.in_features := dim; Linear.out_features := num_tokens;
                      Linear.bias := true; Linear.weights := Linear.Float |}) |} |} /\
    T5RelativePositionBias.relative_attention_bias (Attention.rel_pos_bias attn) =
      {| Embedding.id := (s + 10)%nat; Embedding.num_embeddings := 32;
         Embedding.embedding_dim := dim_head |} /\
    s' = (s + 20 + 7 * Z.to_nat depth)%nat /\
    0 <= num_tokens /\ 0 <= dim /\ 0 <= dim_head * heads /\ 0 <= heads * 2 /\
    0 <= dim_head.
Proof.
  intros H. unfold LaMDA.init in H.
  cbn [bind ctor_monad fresh] in H.
  step_bind H. step_bind H.
  unfold Embedding.init, fresh, raise_ctor in E. ctor_inv E.
  assert (Hemb : t = {| Embedding.id := S s; Embedding.num_embeddings := num_tokens;
                        Embedding.embedding_dim := dim |}) by congruence.
  assert (Ho : o = S (S s)) by congruence.
  clear E. subst t o.
  unfold Transformer.init in E0. cbn [bind ctor_monad fresh] in E0.
  step_bind E0. pose proof (Attention_init_table _ _ _ _ _ E) as (Htab & Hp1 & Hp2 & Hp3 & _).
  apply Attention_init_inv in E as (_ & _ & ->).
  step_bind E0. apply FeedForward_init_inv in E as (_ & _ & -> & _).
  cbn [ret ctor_monad] in E0.
  step_bind E0. pose proof (append_layers_state _ _ _ _ _ E) as ->.
  apply append_layers_inv in E as [-> _].
  match type of E0 with
  | Ok (?c, ?n) = _ => assert (Htr : t0 = c) by congruence;
                       assert (Hs : o0 = n) by congruence
  end.
  clear E0. subst t0 o0.
  unfold LayerNorm.init, Linear.init, Sequential.init, fresh, raise_ctor in H.
  ctor_inv H.
  match type of H with
  | Ok (?c, ?n) = _ => assert (Hm : m = c) by congruence;
                       assert (Hs : s' = n) by congruence
  end.
  clear H. exists t, t1. split; [|split; [|split]].
  - rewrite Hm. f_equal.
    + f_equal. lia.
    + f_equal; [lia|]. f_equal; [lia|].
      apply map_ext. intros k. f_equal. lia.
    + f_equal; [lia|]. f_equal; f_equal; lia.
  - rewrite Htab. f_equal. lia.
  - lia.
  - lia.
Qed.

Lemma quantized_layer_params f dim (attn : Attention.t) (ffn : FeedForward.t) i :
  named_parameters (convert (relabel f (layer_at dim attn ffn i))) =
  norm_params (f (i + 1)%nat) dim ++
  named_parameters
    (relabel f (T5RelativePositionBias.relative_attention_bias
                  (Attention.rel_pos_bias attn))) ++
  norm_params (f (i + 4)%nat) dim ++ [].
Proof. reflexivity. Qed.

Lemma quantized_total num_tokens dim dim_head (e t b : oid) n :
  (e < t)%nat -> (t < b)%nat ->
  total_numel
    (unique []
       ([{| p_owner := e; p_name := Weight; p_numel := num_tokens * dim |}] ++
        flat_map (fun k => norm_params (b + 7 * k + 1)%nat dim ++
                           [{| p_owner := t; p_name := Weight;
                               p_numel := 32 * dim_head |}] ++
                           norm_params (b + 7 * k + 4)%nat dim ++ [])
                 (seq 0 n) ++
        norm_params (b + 7 * n)%nat dim)) =
  num_tokens * dim + (if (0 <? n)%nat then 32 * dim_head else 0)
  + 4 * dim * Z.of_nat n + 2 * dim.
Proof.
  intros Het Htb.
  set (E := {| p_owner := e; p_name := Weight; p_numel := num_tokens * dim |}).
  set (T := {| p_owner := t; p_name := Weight; p_numel := 32 * dim_head |}).
  set (tail := norm_params (b + 7 * n)%nat dim).
  assert (Htail : NoDup tail) by (subst tail; unfold norm_params; nodup_explicit).
  assert (Htail_range : Forall (fun x => (b + 7 * n <= p_owner x)%nat) tail)
    by (subst tail; unfold norm_params; owners_explicit).
  assert (Htotal_tail : total_numel tail = 2 * dim)
    by (subst tail; unfold norm_params, total_numel;
        cbn [map fold_right p_numel]; ring).
  destruct (0 <? n)%nat eqn:Hd.
  - assert (Hn : (0 < n)%nat) by now apply Nat.ltb_lt.
    destruct (norms_facts b dim n 0) as (Hnd & Hrange & Hsum).
    cbn zeta in Hnd, Hrange, Hsum.
    set (norms := flat_map (fun k => norm_params (b + 7 * k + 1)%nat dim ++
                                     norm_params (b + 7 * k + 4)%nat dim)
                           (seq 0 n)) in *.
    rewrite (@total_numel_unique _ (([E] ++ [T] ++ []) ++ norms ++ tail)).
    + rewrite !total_numel_app, Hsum, Htotal_tail.
      subst E T. unfold total_numel. cbn [map fold_right p_numel]. ring.
    + rewrite Forall_forall in Hrange, Htail_range.
      apply NoDup_app; [|apply NoDup_app; assumption || idtac|].
      * subst E T. cbn [app]. nodup_explicit.
      * intros x Hx Hx'. apply Hrange in Hx. apply Htail_range in Hx'. lia.
      * intros x Hx Hx'.
        assert (Hlow : (p_owner x < b)%nat).
        { subst E T. cbn [app In] in Hx.
          repeat (destruct Hx as [Hx|Hx]; [subst x; cbn; lia|]).
          contradiction. }
        apply in_app_iff in Hx' as [Hx'|Hx'];
          [apply Hrange in Hx' | apply Htail_range in Hx']; lia.
    + intros x. rewrite !in_app_iff.
      rewrite (in_layers_iff _ _ [T] [] x Hn). fold norms. cbn [In]. tauto.
  - assert (Hn : n = 0%nat) by (apply Nat.ltb_ge in Hd; lia). rewrite Hn in *.
    cbn [seq flat_map app].
    rewrite (@total_numel_unique _ (E :: tail)).
    + change (E :: tail) with ([E] ++ tail).
      rewrite total_numel_app, Htotal_tail.
      subst E. unfold total_numel. cbn [map fold_right p_numel Z.of_nat]. ring.
    + constructor; [|assumption].
      intros Hin. rewrite Forall_forall in Htail_range.
      apply Htail_range in Hin. subst E. cbn in Hin. lia.
    + intros x. tauto.
Qed.

(** X15. With [quantized_logits] set (and [quantized_transformer] unset)
    the returned model keeps as trainable parameters only the embedding
    table, the bias table of the attention block and the layer
    normalisations: the affine layers, being quantized, contribute nothing,
    and the count never exceeds that of the model built without
    quantization from the same configuration. *)
Theorem quantized_parameter_count :
  forall CFG s m s',
    lamda_model CFG true false s = Ok (m, s') ->
    n_params m =
      cfg_num_tokens CFG * cfg_dim CFG
      + (if 0 <? cfg_depth CFG then 32 * cfg_dim_head CFG else 0)
      + 4 * cfg_dim CFG * Z.max (cfg_depth CFG) 0
      + 2 * cfg_dim CFG /\
    exists m0 s0,
      lamda_model CFG false false s = Ok (m0, s0) /\
      n_params m <= n_params m0.
Proof.
  intros CFG s m s' H. unfold lamda_model in *.
  cbn [bind ctor_monad] in *. step_bind H.
  unfold quantize_dynamic in H. cbn [ret ctor_monad] in H.
  match type of H with
  | Ok (?c, _) = _ => assert (Hm : m = c) by congruence
  end.
  clear H.
  pose proof (LaMDA_init_float_params _ _ _ _ _ _ E) as Hfloat.
  pose proof (LaMDA_init_float_exact _ _ _ _ _ _ E)
    as (attn & ffn & Ht & Htab & Ho & Hnt & Hdim & Hp1 & Hp2 & Hdh).
  set (nt := cfg_num_tokens CFG) in *. set (dim := cfg_dim CFG) in *.
  set (dh := cfg_dim_head CFG) in *. set (h := cfg_heads CFG) in *.
  set (n := Z.to_nat (cfg_depth CFG)) in *.
  assert (Hq : n_params m =
               nt * dim + (if (0 <? n)%nat then 32 * dh else 0)
               + 4 * dim * Z.of_nat n + 2 * dim).
  { unfold n_params, parameters.
    rewrite <- (@quantized_total nt dim dh (o + (s + 1))%nat (o + (s + 10))%nat
                  (o + s + 17)%nat n) by lia.
    do 2 f_equal. rewrite Hm, Ht.
    unfold named_parameters at 1, LaMDA_Parameters.
    cbn [convert relabel LaMDA_Module LaMDA.token_emb LaMDA.transformer
         LaMDA.to_logits].
    apply (f_equal2 (@app param)); [reflexivity|].
    apply (f_equal2 (@app param)).
    - unfold named_parameters at 1, Transformer_Parameters.
      unfold named_parameters at 1, ModuleList_Parameters.
      unfold named_parameters at 1, list_Parameters.
      cbn [convert relabel Transformer_Module ModuleList_Module list_Module
           Transformer.layers ModuleList.modules].
      rewrite !flat_map_concat_map, !map_map. f_equal.
      apply map_ext. intros k.
      etransitivity;
        [exact (quantized_layer_params (fun i => (o + i)%nat) dim attn ffn
                  (s + 17 + 7 * k)%nat)|].
      rewrite Htab.
      apply (f_equal2 (@app param)); [f_equal; lia|].
      apply (f_equal2 (@app param)); [reflexivity|].
      apply (f_equal2 (@app param)); [f_equal; lia | reflexivity].
    - cbn. unfold norm_params. repeat (f_equal; try lia). }
  assert (Hf : n_params t =
               nt * dim
               + (if (0 <? n)%nat
                  then (dh * h * dim + h * 2 * dim + (dim * (dh * h) + dim) + 32 * dh)
                       + (dim * 4 * 2 * dim + dim * 4 * 2 + (dim * (dim * 4 * 2) + dim))
                  else 0)
               + 4 * dim * Z.of_nat n + (2 * dim + nt * dim + nt)).
  { unfold n_params, parameters. rewrite Hfloat. apply float_total. }
  split.
  - rewrite Hq. subst n.
    destruct (0 <? cfg_depth CFG) eqn:Hd.
    + assert (E' : (0 <? Z.to_nat (cfg_depth CFG))%nat = true)
        by (apply Nat.ltb_lt; lia).
      rewrite E'. replace (Z.of_nat (Z.to_nat (cfg_depth CFG)))
        with (Z.max (cfg_depth CFG) 0) by lia. reflexivity.
    + assert (E' : (0 <? Z.to_nat (cfg_depth CFG))%nat = false)
        by (apply Nat.ltb_ge; lia).
      rewrite E'. replace (Z.of_nat (Z.to_nat (cfg_depth CFG)))
        with (Z.max (cfg_depth CFG) 0) by lia. reflexivity.
  - exists t, o. split; [reflexivity|].
    rewrite Hq, Hf. destruct (0 <? n)%nat; nia.
Qed.

Lemma quantized_parameter_count_witness :
  exists m s',
    lamda_model demo_config true false 0%nat = Ok (m, s') /\
    n_params m = 3776 /\
    exists m0 s0,
      lamda_model demo_config false false 0%nat = Ok (m0, s0) /\
      n_params m <= n_params m0.
Proof.
  eexists. eexists. split; [vm_compute; reflexivity|].
  eapply (@quantized_parameter_count demo_config 0%nat).
  vm_compute. reflexivity.
Defined.

(** ** The driver *)

(** X16. For a configuration of positive sizes the driver builds the
    model without quantization, feeds it one sequence of [dim] tokens and
    prints the shape [(1, dim, num_tokens)] and the parameter count given by
    the formula of the stack with shared blocks. *)
Theorem main_prints :
  forall CFG (tokens : itensor) s,
    0 < cfg_num_tokens CFG -> 0 < cfg_dim CFG -> 0 < cfg_depth CFG ->
    0 < cfg_dim_head CFG -> 0 < cfg_heads CFG ->
    ishape tokens = [1; cfg_dim CFG] ->
    Forall (fun v => 0 <= v < cfg_num_tokens CFG) (idata tokens) ->
    exists s',
      main CFG tokens s =
      Ok (([1; cfg_dim CFG; cfg_num_tokens CFG],
           cfg_num_tokens CFG * cfg_dim CFG
           + ((cfg_dim_head CFG * cfg_heads CFG * cfg_dim CFG
               + cfg_heads CFG * 2 * cfg_dim CFG
               + (cfg_dim CFG * (cfg_dim_head CFG * cfg_heads CFG) + cfg_dim CFG)
               + 32 * cfg_dim_head CFG)
              + (cfg_dim CFG * 4 * 2 * cfg_dim CFG + cfg_dim CFG * 4 * 2
                 + (cfg_dim CFG * (cfg_dim CFG * 4 * 2) + cfg_dim CFG)))
           + 4 * cfg_dim CFG * cfg_depth CFG
           + (2 * cfg_dim CFG + cfg_num_tokens CFG * cfg_dim CFG
              + cfg_num_tokens CFG)), s').
Proof.
  intros CFG tokens s Hnt Hdim Hdepth Hdh Hh Hshape Hrange.
  destruct (@LaMDA_init_ok (cfg_num_tokens CFG) (cfg_dim CFG) (cfg_depth CFG)
              (cfg_dim_head CFG) (cfg_heads CFG) false s)
    as (m & s1 & Hm); try lia.
  pose proof (LaMDA_init_sizes _ _ _ _ _ _ _ Hm) as Hsizes.
  pose proof (LaMDA_init_float_params _ _ _ _ _ _ Hm) as Hparams.
  exists s1. unfold main, lamda_model.
  cbn [bind ctor_monad]. rewrite Hm. cbn [ret ctor_monad].
  rewrite (@LaMDA_forward_shape m (cfg_num_tokens CFG) (cfg_dim CFG)
             (cfg_dim_head CFG) (cfg_heads CFG) tokens 1 (cfg_dim CFG))
    by assumption.
  cbn [lift]. do 3 f_equal.
  unfold n_params, parameters. rewrite Hparams, float_total.
  assert (E : (0 <? Z.to_nat (cfg_depth CFG))%nat = true)
    by (apply Nat.ltb_lt; lia).
  rewrite E, Z2Nat.id by lia. reflexivity.
Qed.

Lemma main_prints_witness :
  exists s',
    main demo_config
         {| ishape := [1; 32];
            idata := map (fun k => Z.of_nat k) (seq 0 32) |} 0%nat =
    Ok (([1; 32; 100], 26084), s').
Proof.
  destruct (@main_prints demo_config
              {| ishape := [1; 32];
                 idata := map (fun k => Z.of_nat k) (seq 0 32) |} 0%nat)
    as (s' & Hs'); cbn [demo_config cfg_num_tokens cfg_dim cfg_depth cfg_dim_head
                         cfg_heads ishape idata]; try lia; try reflexivity.
  - apply Forall_forall. intros v Hv. apply in_map_iff in Hv as (k & <- & Hk).
    apply in_seq in Hk. lia.
  - exists s'. exact Hs'.
Defined.

(** ** Token tensors without a batch axis *)

Lemma Attention_forward_unbatched a dim heads dim_head n :
  Attention_sizes a dim heads dim_head -> 0 < dim_head ->
  Attention.forward a [n; dim] = Raise (EinopsError "wrong number of dimensions").
Proof.
  intros [] Hd. unfold Attention.forward, Attention.project.
  change [n; dim] with ([n] ++ [dim]).
  rewrite !Linear_forward_shape by assumption.
  rewrite as_q_out0, as_kv_out0. cbn [bind result_monad].
  rewrite chunk2_even by assumption. reflexivity.
Qed.

(** X17. A model with at least one layer accepts only batched input: on a
    token tensor of shape [(n)] the split of the queries into heads raises,
    because it expects three axes.  A model without layers maps the same
    tensor to shape [(n, num_tokens)]. *)
Theorem forward_needs_batch_axis :
  forall num_tokens dim depth dim_head heads q s m s' (x : itensor) n,
    LaMDA.init num_tokens dim depth dim_head heads q s = Ok (m, s') ->
    0 < heads ->
    ishape x = [n] ->
    Forall (fun v => 0 <= v < num_tokens) (idata x) ->
    LaMDA.forward m x =
    if 0 <? depth then Raise (EinopsError "wrong number of dimensions")
    else Ok [n; num_tokens].
Proof.
  intros * H Hh Hshape Hrange.
  pose proof (LaMDA_init_sizes _ _ _ _ _ _ _ H) as [].
  apply LaMDA_init_inv in H as (s1 & Htr & _).
  apply Transformer_init_inv in Htr as (attn & ffn & s2 & Ha & Hf & Hst).
  unfold LaMDA.forward.
  rewrite Embedding_forward_shape by now rewrite ms_rows0.
  rewrite Hshape, ms_cols0. cbn [app bind result_monad].
  unfold forward at 1, Transformer_Forward, Transformer.forward.
  fold (stack (LaMDA.transformer m)). rewrite Hst.
  destruct (0 <? depth) eqn:Hd.
  - destruct (Z.to_nat depth) as [|k] eqn:Hk; [lia|].
    cbn [seq map Transformer.forward_layers].
    unfold Transformer.forward_layer, layer_at at 1.
    cbn [ModuleList.modules].
    unfold forward at 1, Residual_Forward, Residual.forward.
    unfold forward at 1, PreNorm_Forward, PreNorm.forward.
    cbn [Residual.fn PreNorm.norm PreNorm.fn].
    change [n; dim] with ([n] ++ [dim]).
    rewrite LayerNorm_forward_shape by reflexivity.
    cbn [bind result_monad app].
    unfold forward at 1, Attention_Forward.
    rewrite (Attention_forward_unbatched n Ha Hh). reflexivity.
  - replace (Z.to_nat depth) with 0%nat by lia.
    cbn [seq map Transformer.forward_layers bind result_monad].
    unfold forward, Sequential_Forward, Sequential.forward.
    unfold forward, pair_Forward.
    unfold forward, LayerNorm_Forward, Linear_Forward.
    fold (logits_norm m) (logits_proj m).
    change [n; dim] with ([n] ++ [dim]).
    rewrite (LayerNorm_forward_shape _ [n] ms_norm0). cbn [bind result_monad].
    rewrite (Linear_forward_shape _ [n] ms_proj_in0).
    now rewrite ms_proj_out0.
Qed.

Lemma forward_needs_batch_axis_witness :
  exists m s',
    LaMDA.init 100 32 2 8 4 false 0%nat = Ok (m, s') /\
    LaMDA.forward m {| ishape := [3]; idata := [5; 99; 7] |} =
    Raise (EinopsError "wrong number of dimensions").
Proof.
  eexists. eexists. split; [vm_compute; reflexivity|].
  eapply (@forward_needs_batch_axis 100 32 2 8 4 false 0%nat _ _
            {| ishape := [3]; idata := [5; 99; 7] |} 3).
  - vm_compute. reflexivity.
  - lia.
  - reflexivity.
  - repeat constructor; lia.
Defined.

(** ** The residual wrapper *)

(** X18. The residual wrapper adds by broadcasting: around an affine map
    whose output has one feature it returns the input shape [(b, d)] without
    complaint, and it raises only when the output width is neither [d] nor
    [1] (and [d] is not [1]). *)
Theorem residual_broadcasts :
  forall (l : Linear.t) (id : oid) b d,
    Linear.in_features l = d ->
    (Linear.out_features l = 1 ->
     Residual.forward {| Residual.id := id; Residual.fn := l |} [b; d] = Ok [b; d]) /\
    (Linear.out_features l = d ->
     Residual.forward {| Residual.id := id; Residual.fn := l |} [b; d] = Ok [b; d]) /\
    (Linear.out_features l <> d -> Linear.out_features l <> 1 -> d <> 1 ->
     Residual.forward {| Residual.id := id; Residual.fn := l |} [b; d] =
     Raise (RuntimeError "the size of the tensors must match")).
Proof.
  intros l id b d Hin.
  assert (Hfwd : forward l [b; d] = Ok [b; Linear.out_features l]).
  { unfold forward, Linear_Forward. change [b; d] with ([b] ++ [d]).
    now rewrite Linear_forward_shape. }
  unfold Residual.forward. cbn [Residual.fn]. rewrite Hfwd.
  cbn [bind result_monad]. unfold broadcast_shapes.
  cbn [rev app broadcast_rev bind result_monad].
  split; [|split].
  - intros ->.
    assert (E : broadcast_dim 1 d = Ok d).
    { unfold broadcast_dim. destruct (1 =? d) eqn:E; [|reflexivity].
      apply Z.eqb_eq in E. now rewrite <- E. }
    rewrite E. cbn [bind result_monad]. now rewrite broadcast_dim_same.
  - intros ->. now rewrite !broadcast_dim_same.
  - intros H1 H2 H3. unfold broadcast_dim at 1.
    assert (E1 : (Linear.out_features l =? d) = false) by lia.
    assert (E2 : (Linear.out_features l =? 1) = false) by lia.
    assert (E3 : (d =? 1) = false) by lia.
    now rewrite E1, E2, E3.
Qed.

Lemma residual_broadcasts_witness :
  Residual.forward
    {| Residual.id := 1%nat;
       Residual.fn := {| Linear.id := 0%nat; Linear.in_features := 32;
                         Linear.out_features := 1; Linear.bias := true;
                         Linear.weights := Linear.Float |} |} [4; 32] = Ok [4; 32].
Proof.
  destruct (@residual_broadcasts
              {| Linear.id := 0%nat; Linear.in_features := 32;
                 Linear.out_features := 1; Linear.bias := true;
                 Linear.weights := Linear.Float |} 1%nat 4 32 eq_refl)
    as (H & _ & _).
  apply H. reflexivity.
Defined.
